(** * EFS filesystem registry (efs/src/fs/fs.c)

    A shallow embedding of the in-memory filesystem list of [fs.c] and of
    the operations that create, delete, export and unexport a filesystem,
    followed by the properties of these operations.

    The registry is the global [fs_list]; the collaborators that [fs.c]
    only calls (namespace store, kvtree backend, tenant store) are kept
    abstract in the record [Externals]; every call into them and every
    mutation of [fs_list] is written to an event log, so that orderings can
    be stated. *)

From Stdlib Require Import ZArith Lia.
From stdpp Require Import base tactics option list strings.

Open Scope Z_scope.

(** ** errno.h *)

Module Errno.
Definition ENOENT : Z := 2.
Definition EIO : Z := 5.
Definition ENOMEM : Z := 12.
Definition EEXIST : Z := 17.
Definition EINVAL : Z := 22.
Definition ENOTEMPTY : Z := 39.
End Errno.
Import Errno.

(** ** Data *)

(** Modelled from the spec: [str256_t] is the bounded string "STR256"
    (at most 255 bytes with an explicit length); its header is not part of
    the sources at hand.  The bound plays no role in the registry logic, so
    the string itself stands for the object. *)
Definition str256_t := string.

(** Modelled from the spec: [str256_cmp] is the comparison of two
    [str256_t]; [fs.c] only tests its result against [0], which means
    equality. *)
Definition str256_cmp (a b : str256_t) : Z :=
  match String.compare a b with
  | Eq => 0
  | Lt => -1
  | Gt => 1
  end.

(** Modelled from the spec: the NamespaceIdentity ([struct namespace] of
    namespace.h): id, name and backend fid.  [ns_get_id] and [ns_get_name]
    are its accessors. *)
Record struct_namespace := mk_namespace {
  ns_id : Z;
  ns_name : str256_t;
  ns_fid : Z
}.

Definition ns_get_id (n : struct_namespace) : Z := ns_id n.
Definition ns_get_name (n : struct_namespace) : str256_t := ns_name n.

(** Modelled from the spec: the EndpointBinding ([struct tenant] of
    tenant.h).  [tenant_info] is the pointer handed out by
    [tenant_get_info]; [None] is the NULL pointer. *)
Record struct_tenant := mk_tenant {
  tenant_name : str256_t;
  tenant_ns_id : Z;
  tenant_options : string;
  tenant_info : option string
}.

Definition tenant_get_name (t : struct_tenant) : str256_t := tenant_name t.
Definition tenant_get_info (t : struct_tenant) : option string := tenant_info t.

(** The handle on an open metadata tree ([struct kvtree]); opaque here. *)
Inductive struct_kvtree := KvTree (index : Z).

(** The fields of [struct stat] that [efs_fs_create] sets. *)
Record struct_stat := mk_stat {
  st_mode : Z;
  st_ino : Z;
  st_nlink : Z;
  st_uid : Z;
  st_gid : Z;
  st_atim : Z;
  st_mtim : Z;
  st_ctim : Z
}.

Definition S_IFDIR : Z := 16384.   (* 0040000 *)
Definition ACCESSPERMS : Z := 511. (* 0777 *)

(** Heap blocks obtained from [malloc] are named by their address. *)
Definition addr := nat.

(** [struct efs_fs].  Every node linked in [fs_list] has a non-NULL [ns]
    (both places that link a node copy a namespace into a fresh block
    first), so the pointer is modelled by the block [ns_blk] together with
    the namespace [ns] it holds.  [tenant] and [kvtree] may be NULL. *)
Record struct_efs_fs := mk_efs_fs {
  ns : struct_namespace;
  ns_blk : addr;
  tenant : option struct_tenant;
  kvtree : option struct_kvtree
}.

(** [struct efs_fs_node]: the fs object and the block the node lives in.
    The [link] field is the position in the Rocq list. *)
Record struct_efs_fs_node := mk_efs_fs_node {
  efs_fs : struct_efs_fs;
  node_blk : addr
}.

Definition set_tenant (t : option struct_tenant) (n : struct_efs_fs_node)
  : struct_efs_fs_node :=
  {| efs_fs := {| ns := ns (efs_fs n); ns_blk := ns_blk (efs_fs n);
                  tenant := t; kvtree := kvtree (efs_fs n) |};
     node_blk := node_blk n |}.

Definition set_kvtree (k : option struct_kvtree) (n : struct_efs_fs_node)
  : struct_efs_fs_node :=
  {| efs_fs := {| ns := ns (efs_fs n); ns_blk := ns_blk (efs_fs n);
                  tenant := tenant (efs_fs n); kvtree := k |};
     node_blk := node_blk n |}.

(** ** The heap

    Only the blocks that [fs.c] itself allocates are tracked, one block per
    call of [malloc] whatever the size asked for.  [malloc] fails once
    [heap_limit] blocks are live.  A fresh block is not
    cleared: [stale p] is what the [tenant] field of a node placed at [p]
    holds before anything is stored in it. *)
Record heap := mk_heap {
  live : list addr;
  brk : addr;
  heap_limit : nat;
  stale : addr -> option struct_tenant
}.

Definition malloc (h : heap) : option addr * heap :=
  if decide (length (live h) < heap_limit h)%nat
  then (Some (brk h),
        {| live := brk h :: live h; brk := S (brk h);
           heap_limit := heap_limit h; stale := stale h |})
  else (None, h).

Definition free (p : addr) (h : heap) : heap :=
  {| live := filter (fun q => q <> p) (live h); brk := brk h;
     heap_limit := heap_limit h; stale := stale h |}.

(** ** Events: calls that leave [fs.c], and mutations of [fs_list] *)

Inductive event :=
| EvNsScan
| EvNsCreate (name : str256_t)
| EvNsDelete (n : struct_namespace)
| EvKvtreeCreate (n : struct_namespace) (bufstat : struct_stat)
| EvKvtreeDelete (k : option struct_kvtree)
| EvTreeCreateRoot (fs : struct_efs_fs)
| EvTreeDeleteRoot (fs : struct_efs_fs)
| EvTenantScan
| EvTenantCreate (name : str256_t) (ns_id : Z) (options : string)
| EvTenantDelete (t : struct_tenant)
| EvFreeTenant (t : struct_tenant)
| EvListInsertHead (name : str256_t)
| EvListRemove (name : str256_t).

(** ** The collaborators of fs.c

    None of these functions is defined in [fs.c]; each takes the state of
    the persistent stores and returns its return code, its out-parameters
    and the new state.  [ns_scan] and [tenant_scan] return the records they
    feed to their callback and the return code of the enumeration itself.
    [dassert_enabled] tells whether [dassert] is compiled to [assert], and
    [EFS_ROOT_INODE] is the constant of that name. *)
Record Externals := mk_externals {
  store : Type;
  dassert_enabled : bool;
  EFS_ROOT_INODE : Z;
  ns_scan : store -> list (struct_namespace * nat) * Z * store;
  ns_create : str256_t -> store -> Z * struct_namespace * nat * store;
  ns_delete : struct_namespace -> store -> Z * store;
  kvtree_create :
    struct_namespace -> struct_stat -> store ->
    Z * option struct_kvtree * store;
  kvtree_delete : option struct_kvtree -> store -> Z * store;
  efs_tree_create_root : struct_efs_fs -> store -> Z * store;
  efs_tree_delete_root : struct_efs_fs -> store -> Z * store;
  tenant_scan : store -> list (option struct_tenant) * Z * store;
  tenant_create :
    str256_t -> Z -> string -> store -> Z * option struct_tenant * store;
  tenant_delete : struct_tenant -> store -> Z * store;
  tree_has_children : struct_namespace -> store -> bool
}.

(** ** The state of the process and the monad of fs.c *)

Inductive halt := AssertFailed | NullDeref.

Inductive outcome (A : Type) :=
| Done (a : A)
| Halted (h : halt).
Arguments Done {A} a.
Arguments Halted {A} h.

Section Registry.

Variable X : Externals.

Record world := mk_world {
  fs_list : list struct_efs_fs_node;
  mem : heap;
  ext : store X;
  log : list event
}.

Definition M (A : Type) := world -> outcome (A * world).

Definition ret {A} (a : A) : M A := fun w => Done (a, w).

Definition bind {A B} (m : M A) (f : A -> M B) : M B :=
  fun w =>
    match m w with
    | Done (a, w') => f a w'
    | Halted h => Halted h
    end.

Definition crash {A} (h : halt) : M A := fun _ => Halted h.

Notation "'do' x <- m ; k" := (bind m (fun x => k))
  (at level 10, x name, m at level 100, k at level 200).
Notation "'do' ' p <- m ; k" := (bind m (fun x => match x with p => k end))
  (at level 10, p pattern, m at level 100, k at level 200).
Notation "'run' m ; k" := (bind m (fun _ => k))
  (at level 10, m at level 100, k at level 200).

Definition emit (e : event) : M unit :=
  fun w => Done (tt, {| fs_list := fs_list w; mem := mem w; ext := ext w;
                        log := log w ++ [e] |}).

Definition get_list : M (list struct_efs_fs_node) :=
  fun w => Done (fs_list w, w).

Definition put_list (l : list struct_efs_fs_node) : M unit :=
  fun w => Done (tt, {| fs_list := l; mem := mem w; ext := ext w;
                        log := log w |}).

Definition do_malloc : M (option addr) :=
  fun w => let '(p, h) := malloc (mem w) in
           Done (p, {| fs_list := fs_list w; mem := h; ext := ext w;
                       log := log w |}).

Definition do_free (p : addr) : M unit :=
  fun w => Done (tt, {| fs_list := fs_list w; mem := free p (mem w);
                        ext := ext w; log := log w |}).

(** A call into a collaborator: log it, run it on the stores. *)
Definition extcall {A} (e : event) (f : store X -> A * store X) : M A :=
  fun w => let '(a, s) := f (ext w) in
           Done (a, {| fs_list := fs_list w; mem := mem w; ext := s;
                       log := log w ++ [e] |}).

(** The [tenant] field of a node that has just been allocated at [p]. *)
Definition uninitialised (p : addr) : M (option struct_tenant) :=
  fun w => Done (stale (mem w) p, w).

(** [dassert(cond)] *)
Definition dassert (cond : bool) : M unit :=
  if negb cond && dassert_enabled X then crash AssertFailed else ret tt.

(** ** fs.c

    [RC_WRAP_LABEL(rc, label, f, args)] comes from common/helpers.h: it
    stores the result of [f(args)] in [rc] and jumps to [label] when the
    result is not [0].  The jumps are written here as the branches they
    lead to.  Logging has no effect on the state and is left out. *)

(** [efs_fs_is_empty]: the body is [return 0]. *)
Definition efs_fs_is_empty (fs : struct_efs_fs) : Z := 0.

(** [efs_fs_get_name] *)
Definition efs_fs_get_name (fs : struct_efs_fs) : str256_t :=
  ns_get_name (ns fs).

(** [efs_get_ns_id]; its [dassert(fs)] holds where it is called, after a
    successful lookup. *)
Definition efs_get_ns_id (fs : struct_efs_fs) : Z := ns_get_id (ns fs).

(** [efs_fs_endpoint_info] *)
Definition efs_fs_endpoint_info (fs : struct_efs_fs) : option string :=
  match tenant fs with
  | None => None
  | Some t => tenant_get_info t
  end.

(** [efs_fs_lookup]: walks [fs_list] from its head and stops at the first
    node whose name compares equal.  The result is the return code and the
    value stored through [fs]: the position of the node found, or NULL. *)
Fixpoint efs_fs_lookup (name : str256_t) (l : list struct_efs_fs_node)
  : Z * option nat :=
  match l with
  | [] => (- ENOENT, None)
  | fs_node :: rest =>
      if str256_cmp name (ns_get_name (ns (efs_fs fs_node))) =? 0
      then (0, Some 0%nat)
      else let '(rc, fs) := efs_fs_lookup name rest in (rc, S <$> fs)
  end.

(** Dereference of a [struct efs_fs *] obtained from [efs_fs_lookup]. *)
Definition deref (fs : option nat) : M struct_efs_fs_node :=
  fun w =>
    match fs with
    | None => Halted NullDeref
    | Some i =>
        match fs_list w !! i with
        | Some n => Done (n, w)
        | None => Halted NullDeref
        end
    end.

(** Store through a [struct efs_fs *]. *)
Definition assign (fs : option nat)
    (f : struct_efs_fs_node -> struct_efs_fs_node) : M unit :=
  run deref fs;
  do l <- get_list;
  put_list (alter f (default 0%nat fs) l).

(** [fs_ns_scan_cb]: the callback of [ns_scan]; links a copy of the
    namespace at the head of [fs_list], or returns without linking when a
    [malloc] fails.  It sets [kvtree] to NULL and stores nothing in
    [tenant]. *)
Definition fs_ns_scan_cb (n : struct_namespace) (ns_size : nat) : M unit :=
  do fs_node <- do_malloc;
  match fs_node with
  | None => ret tt
  | Some node_p =>
      do ns_copy <- do_malloc;
      match ns_copy with
      | None => do_free node_p
      | Some ns_p =>
          do junk <- uninitialised node_p;
          let node :=
            {| efs_fs := {| ns := n; ns_blk := ns_p; tenant := junk;
                            kvtree := None |};
               node_blk := node_p |} in
          do l <- get_list;
          run put_list (node :: l);
          emit (EvListInsertHead (ns_get_name n))
      end
  end.

(** [endpoint_tenant_scan_cb]: the callback of [tenant_scan]. *)
Definition endpoint_tenant_scan_cb (t : option struct_tenant) : M Z :=
  match t with
  | None => ret (- ENOENT)
  | Some tn =>
      let endpoint_name := tenant_get_name tn in
      do l <- get_list;
      let '(rc, fs) := efs_fs_lookup endpoint_name l in
      run dassert (rc =? 0);
      (* fs_node = container_of(fs, ...); fs_node->efs_fs.tenant = tenant *)
      run assign fs (set_tenant (Some tn));
      ret rc
  end.

(** Modelled from the spec: [ns_scan] (namespace store, not in the sources
    at hand) enumerates the persisted namespaces and hands each one, with
    its size, to the callback. *)
Fixpoint ns_scan_loop (cb : struct_namespace -> nat -> M unit)
    (records : list (struct_namespace * nat)) : M unit :=
  match records with
  | [] => ret tt
  | (n, ns_size) :: rest => run cb n ns_size; ns_scan_loop cb rest
  end.

(** Modelled from the spec: [tenant_scan] (tenant store, not in the
    sources at hand) enumerates the persisted tenant records and hands each
    to the callback; it stops at the first callback that returns an error
    and returns that error. *)
Fixpoint tenant_scan_loop (cb : option struct_tenant -> M Z)
    (records : list (option struct_tenant)) (rc_end : Z) : M Z :=
  match records with
  | [] => ret rc_end
  | t :: rest =>
      do rc <- cb t;
      if rc =? 0 then tenant_scan_loop cb rest rc_end else ret rc
  end.

(** [efs_fs_init] *)
Definition efs_fs_init : M Z :=
  do '(records, rc) <- extcall EvNsScan (ns_scan X);
  run ns_scan_loop fs_ns_scan_cb records;
  ret rc.

(** [efs_endpoint_init] *)
Definition efs_endpoint_init : M Z :=
  do '(records, rc_end) <- extcall EvTenantScan (tenant_scan X);
  tenant_scan_loop endpoint_tenant_scan_cb records rc_end.

(** [efs_endpoint_fini]: every node gets [tenant = NULL]. *)
Definition efs_endpoint_fini : M Z :=
  do l <- get_list;
  run put_list (set_tenant None <$> l);
  ret 0.

(** The loop of [efs_fs_fini]: unlink the node, free its namespace copy,
    free the node. *)
Fixpoint fini_loop (l : list struct_efs_fs_node) : M unit :=
  match l with
  | [] => ret tt
  | fs_node :: rest =>
      run put_list rest;
      run emit (EvListRemove (efs_fs_get_name (efs_fs fs_node)));
      run do_free (ns_blk (efs_fs fs_node));
      run do_free (node_blk fs_node);
      fini_loop rest
  end.

(** [efs_fs_fini] *)
Definition efs_fs_fini : M Z :=
  do rc <- efs_endpoint_fini;
  if negb (rc =? 0) then ret rc
  else
    do l <- get_list;
    run fini_loop l;
    ret rc.

(** The root stat built by [efs_fs_create]. *)
Definition root_bufstat : struct_stat :=
  {| st_mode := Z.lor S_IFDIR ACCESSPERMS;
     st_ino := EFS_ROOT_INODE X;
     st_nlink := 2;
     st_uid := 0;
     st_gid := 0;
     st_atim := 0;
     st_mtim := 0;
     st_ctim := 0 |}.

(** [efs_fs_create] *)
Definition efs_fs_create (fs_name : str256_t) : M Z :=
  do l <- get_list;
  let '(rc, _) := efs_fs_lookup fs_name l in
  if rc =? 0 then ret (- EEXIST)
  else
    do fs_node <- do_malloc;
    match fs_node with
    | None => ret (- ENOMEM)
    | Some node_p =>
        do '(rc, n, ns_size) <- extcall (EvNsCreate fs_name)
                                        (ns_create X fs_name);
        if negb (rc =? 0) then
          (* free_fs_node *)
          run do_free node_p; ret rc
        else
          do ns_copy <- do_malloc;
          match ns_copy with
          | None => crash NullDeref (* memcpy to the unchecked NULL *)
          | Some ns_p =>
              do '(rc, kvt) <- extcall (EvKvtreeCreate n root_bufstat)
                                       (kvtree_create X n root_bufstat);
              if negb (rc =? 0) then
                (* free_info, rc != 0, free_fs_node *)
                run do_free node_p; ret rc
              else
                let fs := {| ns := n; ns_blk := ns_p; tenant := None;
                             kvtree := kvt |} in
                do rc <- extcall (EvTreeCreateRoot fs)
                                 (efs_tree_create_root X fs);
                (* free_info *)
                if rc =? 0 then
                  do l <- get_list;
                  run put_list ({| efs_fs := fs; node_blk := node_p |} :: l);
                  run emit (EvListInsertHead (ns_get_name n));
                  ret rc
                else
                  (* free_fs_node *)
                  run do_free node_p; ret rc
          end
    end.

(** [efs_endpoint_create] *)
Definition efs_endpoint_create (endpoint_name : str256_t)
    (endpoint_options : string) : M Z :=
  do l <- get_list;
  let '(rc, fs) := efs_fs_lookup endpoint_name l in
  if negb (rc =? 0) then ret (- ENOENT)
  else
    do fs_node <- deref fs;
    match tenant (efs_fs fs_node) with
    | Some _ => ret (- EEXIST)
    | None =>
        let ns_id := efs_get_ns_id (efs_fs fs_node) in
        do '(rc, tn) <- extcall
             (EvTenantCreate endpoint_name ns_id endpoint_options)
             (tenant_create X endpoint_name ns_id endpoint_options);
        if negb (rc =? 0) then ret rc
        else
          run assign fs (set_tenant tn);
          ret rc
    end.

(** [efs_endpoint_delete] *)
Definition efs_endpoint_delete (endpoint_name : str256_t) : M Z :=
  do l <- get_list;
  let '(rc, fs) := efs_fs_lookup endpoint_name l in
  if negb (rc =? 0) then ret (- ENOENT)
  else
    do fs_node <- deref fs;
    match tenant (efs_fs fs_node) with
    | None => ret (- ENOENT)
    | Some tn =>
        do rc <- extcall (EvTenantDelete tn) (tenant_delete X tn);
        if negb (rc =? 0) then ret rc
        else
          run emit (EvFreeTenant tn);
          run assign fs (set_tenant None);
          ret rc
    end.

(** [efs_fs_delete] *)
Definition efs_fs_delete (fs_name : str256_t) : M Z :=
  do l <- get_list;
  let '(rc, fs) := efs_fs_lookup fs_name l in
  if negb (rc =? 0) then ret rc
  else
    do fs_node <- deref fs;
    match tenant (efs_fs fs_node) with
    | Some _ => ret (- EINVAL)
    | None =>
        let rc := efs_fs_is_empty (efs_fs fs_node) in
        if negb (rc =? 0) then ret rc
        else
          do rc <- extcall (EvTreeDeleteRoot (efs_fs fs_node))
                           (efs_tree_delete_root X (efs_fs fs_node));
          if negb (rc =? 0) then ret rc
          else
            do rc <- extcall (EvKvtreeDelete (kvtree (efs_fs fs_node)))
                             (kvtree_delete X (kvtree (efs_fs fs_node)));
            if negb (rc =? 0) then ret rc
            else
              run assign fs (set_kvtree None);
              (* LIST_REMOVE(fs_node, link) *)
              do l <- get_list;
              run put_list (delete (default 0%nat fs) l);
              run emit (EvListRemove fs_name);
              do rc <- extcall (EvNsDelete (ns (efs_fs fs_node)))
                               (ns_delete X (ns (efs_fs fs_node)));
              (* on success fs->ns = NULL, in the node just unlinked *)
              ret rc
    end.

(** ** Views of the registry used in the statements *)

(** The names registered, from the head of [fs_list]. *)
Definition fs_names (l : list struct_efs_fs_node) : list str256_t :=
  (fun fs_node => efs_fs_get_name (efs_fs fs_node)) <$> l.

(** The node a successful [efs_fs_lookup] points to. *)
Definition found (name : str256_t) (l : list struct_efs_fs_node)
  : option struct_efs_fs_node :=
  match efs_fs_lookup name l with
  | (_, Some i) => l !! i
  | (_, None) => None
  end.

(** [endpoint_info(name)]: [efs_fs_lookup] followed by
    [efs_fs_endpoint_info]. *)
Definition endpoint_info (name : str256_t) (l : list struct_efs_fs_node)
  : option string :=
  match found name l with
  | Some fs_node => efs_fs_endpoint_info (efs_fs fs_node)
  | None => None
  end.

(** Registry key uniqueness. *)
Definition unique_names (w : world) : Prop := NoDup (fs_names (fs_list w)).

(** ** Notions used in the statements *)

(** The node that [efs_fs_create] links on success. *)
Definition created_fs (n : struct_namespace) (ns_p : addr)
    (kvt : option struct_kvtree) : struct_efs_fs :=
  {| ns := n; ns_blk := ns_p; tenant := None; kvtree := kvt |}.

(** The namespace store answers [ns_create name] with a namespace of that
    name. *)
Definition ns_create_keeps_name : Prop :=
  forall name s n ns_size s',
    ns_create X name s = (0, n, ns_size, s') -> ns_get_name n = name.

(** The events of a delete that goes through. *)
Definition delete_events (name : str256_t) (fs : struct_efs_fs) : list event :=
  [EvTreeDeleteRoot fs; EvKvtreeDelete (kvtree fs); EvListRemove name;
   EvNsDelete (ns fs)].

(** The last record of the enumeration that bears [name]. *)
Fixpoint last_named (name : str256_t) (records : list struct_tenant)
  : option struct_tenant :=
  match records with
  | [] => None
  | t :: rest =>
      match last_named name rest with
      | Some t' => Some t'
      | None => if decide (tenant_get_name t = name) then Some t else None
      end
  end.

(** How [efs_endpoint_init] ends when it has to stop on a record without
    filesystem: the assertion when [dassert] is compiled in, the store
    through the NULL [fs] otherwise. *)
Definition halt_on_orphan : halt :=
  if dassert_enabled X then AssertFailed else NullDeref.

(** The entry points of fs.c that change [fs_list]. *)
Inductive op :=
| OpFsInit
| OpEndpointInit
| OpCreate (name : str256_t)
| OpDelete (name : str256_t)
| OpEndpointCreate (name : str256_t) (options : string)
| OpEndpointDelete (name : str256_t)
| OpEndpointFini
| OpFsFini.

Definition run_op (o : op) : M Z :=
  match o with
  | OpFsInit => efs_fs_init
  | OpEndpointInit => efs_endpoint_init
  | OpCreate name => efs_fs_create name
  | OpDelete name => efs_fs_delete name
  | OpEndpointCreate name options => efs_endpoint_create name options
  | OpEndpointDelete name => efs_endpoint_delete name
  | OpEndpointFini => efs_endpoint_fini
  | OpFsFini => efs_fs_fini
  end.

(** The names that [ns_scan] would enumerate in state [w]. *)
Definition enumerated_names (w : world) : list str256_t :=
  (fun r => ns_get_name r.1) <$> (ns_scan X (ext w)).1.1.

(** [efs_fs_init] is run only where the namespace store enumerates names
    that are pairwise distinct and not yet registered. *)
Definition admissible (o : op) (w : world) : Prop :=
  match o with
  | OpFsInit => NoDup (enumerated_names w ++ fs_names (fs_list w))
  | _ => True
  end.

(** The states of a run that starts with an empty [fs_list]. *)
Inductive reachable : world -> Prop :=
| reach_start w : fs_list w = [] -> reachable w
| reach_step w o rc w' :
    reachable w -> admissible o w -> run_op o w = Done (rc, w') ->
    reachable w'.

(** The state in which a run ends (the state it started from when the
    process halted). *)
Definition state_after {A} (m : M A) (w : world) : world :=
  match m w with
  | Done (_, w') => w'
  | Halted _ => w
  end.

(** ** The sentences of the specification that the code does not follow *)

(** C2 as worded: after a create that fails once [ns_create] has
    succeeded, [fs_list] is as before, every block allocated on the way is
    free again, and the namespace has been deleted from the store. *)
Definition create_failure_rolls_back (w : world)
    (name : str256_t) : Prop :=
  forall node_p h1 n ns_size s1 rc w',
    name ∉ fs_names (fs_list w) ->
    malloc (mem w) = (Some node_p, h1) ->
    ns_create X name (ext w) = (0, n, ns_size, s1) ->
    efs_fs_create name w = Done (rc, w') ->
    rc <> 0 ->
    fs_list w' = fs_list w /\
    live (mem w') = live (mem w) /\
    EvNsDelete n ∈ log w'.

(** C6 as worded: the emptiness check reports non-empty exactly when the
    tree has children, and a delete of such a filesystem returns
    [-ENOTEMPTY]. *)
Definition delete_checks_emptiness (w : world)
    (name : str256_t) : Prop :=
  forall fs_node,
    found name (fs_list w) = Some fs_node ->
    tenant (efs_fs fs_node) = None ->
    (efs_fs_is_empty (efs_fs fs_node) <> 0 <->
     tree_has_children X (ns (efs_fs fs_node)) (ext w) = true) /\
    (tree_has_children X (ns (efs_fs fs_node)) (ext w) = true ->
     exists w', efs_fs_delete name w = Done (- ENOTEMPTY, w')).

(** C9 as worded: every entry point keeps the names distinct. *)
Definition every_op_keeps_names_unique : Prop :=
  forall o w rc w',
    unique_names w -> run_op o w = Done (rc, w') -> unique_names w'.

End Registry.

Arguments fs_list {X} w.
Arguments mem {X} w.
Arguments ext {X} w.
Arguments log {X} w.
Arguments mk_world {X}.
Arguments state_after {X A} m w.

(** ** A concrete set of collaborators

    An in-memory namespace store, tenant store and tree backend, used to
    run the operations on concrete inputs.  [faults] gives the return code
    of each call. *)

Record faults := mk_faults {
  rc_ns_create : Z;
  rc_kvtree_create : Z;
  rc_tree_create_root : Z;
  rc_tree_delete_root : Z;
  rc_kvtree_delete : Z;
  rc_ns_delete : Z;
  rc_tenant_create : Z;
  rc_tenant_delete : Z
}.

Definition no_fault : faults := mk_faults 0 0 0 0 0 0 0 0.

Record disk := mk_disk {
  namespaces : list struct_namespace;
  tenants : list (option struct_tenant);
  children : list (Z * str256_t);
  next_id : Z
}.

Definition sample_ns (id : Z) (name : str256_t) : struct_namespace :=
  {| ns_id := id; ns_name := name; ns_fid := id |}.

Definition sample_tenant (name : str256_t) (id : Z) (options : string)
  : struct_tenant :=
  {| tenant_name := name; tenant_ns_id := id; tenant_options := options;
     tenant_info := Some options |}.

Definition sample (f : faults) (dassert_on : bool) : Externals :=
  {| store := disk;
     dassert_enabled := dassert_on;
     EFS_ROOT_INODE := 2;
     ns_scan := fun d => ((fun n => (n, 1%nat)) <$> namespaces d, 0, d);
     ns_create := fun name d =>
       if rc_ns_create f =? 0 then
         (0, sample_ns (next_id d) name, 1%nat,
          mk_disk (sample_ns (next_id d) name :: namespaces d) (tenants d)
                  (children d) (next_id d + 1))
       else (rc_ns_create f, sample_ns 0 name, 0%nat, d);
     ns_delete := fun n d =>
       if rc_ns_delete f =? 0 then
         (0, mk_disk (filter (fun m => ns_id m <> ns_id n) (namespaces d))
                     (tenants d) (children d) (next_id d))
       else (rc_ns_delete f, d);
     kvtree_create := fun n _ d =>
       if rc_kvtree_create f =? 0 then (0, Some (KvTree (ns_id n)), d)
       else (rc_kvtree_create f, None, d);
     kvtree_delete := fun _ d => (rc_kvtree_delete f, d);
     efs_tree_create_root := fun _ d => (rc_tree_create_root f, d);
     efs_tree_delete_root := fun _ d => (rc_tree_delete_root f, d);
     tenant_scan := fun d => (tenants d, 0, d);
     tenant_create := fun name id options d =>
       if rc_tenant_create f =? 0 then
         (0, Some (sample_tenant name id options),
          mk_disk (namespaces d)
                  (Some (sample_tenant name id options) :: tenants d)
                  (children d) (next_id d))
       else (rc_tenant_create f, None, d);
     tenant_delete := fun t d =>
       if rc_tenant_delete f =? 0 then
         (0, mk_disk (namespaces d)
                     (filter (fun r => tenant_name <$> r <> Some (tenant_name t))
                             (tenants d))
                     (children d) (next_id d))
       else (rc_tenant_delete f, d);
     tree_has_children := fun n d =>
       bool_decide (ns_id n ∈ (children d).*1) |}.

Definition empty_heap : heap :=
  {| live := []; brk := 1%nat; heap_limit := 16%nat; stale := fun _ => None |}.

Definition empty_disk : disk := mk_disk [] [] [] 1.

(** A fresh process over an empty disk. *)
Definition sample_boot (f : faults) (dassert_on : bool)
  : world (sample f dassert_on) :=
  mk_world (X := sample f dassert_on) [] empty_heap empty_disk [].

(** The node of the filesystem "tank", without and with a binding. *)
Definition tank_fs (t : option struct_tenant) : struct_efs_fs :=
  {| ns := sample_ns 1 "tank"; ns_blk := 2%nat; tenant := t;
     kvtree := Some (KvTree 1) |}.

Definition tank_node (t : option struct_tenant) : struct_efs_fs_node :=
  {| efs_fs := tank_fs t; node_blk := 1%nat |}.

Definition tank_heap : heap :=
  {| live := [2%nat; 1%nat]; brk := 3%nat; heap_limit := 16%nat;
     stale := fun _ => None |}.

Definition tank_tenant : struct_tenant := sample_tenant "tank" 1 "ro".

(** The state of a process in which "tank" is registered: [t] is the
    binding of the node in memory, [on_disk] the records of the tenant
    store and [entries] the directory entries of the trees. *)
Definition sample_tank (f : faults) (dassert_on : bool)
    (t : option struct_tenant) (on_disk : list (option struct_tenant))
    (entries : list (Z * str256_t))
  : world (sample f dassert_on) :=
  mk_world (X := sample f dassert_on)
    [tank_node t] tank_heap
    (mk_disk [sample_ns 1 "tank"] on_disk entries 2)
    [].

(** A fresh process over stores that disagree: a tenant record for
    "tank" and no namespace. *)
Definition sample_orphan (dassert_on : bool)
  : world (sample no_fault dassert_on) :=
  mk_world (X := sample no_fault dassert_on) [] empty_heap
    (mk_disk [] [Some tank_tenant] [] 1) [].

(** A fresh process over a namespace store that holds two namespaces of
    the same name. *)
Definition sample_twins : world (sample no_fault true) :=
  mk_world (X := sample no_fault true) [] empty_heap
    (mk_disk [sample_ns 1 "tank"; sample_ns 2 "tank"] [] [] 3) [].

Definition kvtree_create_fails : faults := mk_faults 0 (- EIO) 0 0 0 0 0 0.
Definition ns_delete_fails : faults := mk_faults 0 0 0 0 0 (- EIO) 0 0.
Definition tenant_delete_fails : faults := mk_faults 0 0 0 0 0 0 0 (- EIO).

(** ** The rest of fs.c: the list scan, open and close *)

(** [struct efs_fs_list_entry]: what [efs_fs_scan_list] shows of a node. *)
Record efs_fs_list_entry := mk_list_entry {
  fs_name : str256_t;
  fs_endpoint_info : option string
}.

(** The collaborators that only [efs_fs_open] and [efs_fs_close] call.
    [str256_from_cstr] is the conversion of a C string of common.h.
    [kvtree_init ns contents] gets the namespace and the block [fs->kvtree]
    points to ([None] for a block fresh from [malloc]) and returns its
    return code and what it left in the block.  [kvtree_fini] gets
    [fs->kvtree] itself, NULL included, and returns what it left in the
    block, unless the process stops in it. *)
Record TreeExternals (X : Externals) := mk_tree_externals {
  str256_from_cstr : string -> str256_t;
  kvtree_init :
    struct_namespace -> option struct_kvtree -> store X ->
    Z * struct_kvtree * store X;
  kvtree_fini :
    option struct_kvtree -> store X -> outcome (struct_kvtree * store X)
}.
Arguments str256_from_cstr {X} _ _.
Arguments kvtree_init {X} _ _ _ _.
Arguments kvtree_fini {X} _ _ _.

Section Handles.

Variable X : Externals.
Variable T : TreeExternals X.

Notation "'do' x <- m ; k" := (bind X m (fun x => k))
  (at level 10, x name, m at level 100, k at level 200).
Notation "'do' ' p <- m ; k" := (bind X m (fun x => match x with p => k end))
  (at level 10, p pattern, m at level 100, k at level 200).
Notation "'run' m ; k" := (bind X m (fun _ => k))
  (at level 10, m at level 100, k at level 200).

(** The entry that [efs_fs_scan_list] builds for a node, with
    [efs_fs_get_name] and [efs_fs_endpoint_info]. *)
Definition list_entry_of (fs_node : struct_efs_fs_node) : efs_fs_list_entry :=
  {| fs_name := efs_fs_get_name (efs_fs fs_node);
     fs_endpoint_info := efs_fs_endpoint_info (efs_fs fs_node) |}.

(** The loop of [efs_fs_scan_list] over the nodes that are left.  The
    visitor [fs_scan_cb] gets the entry and what [args] points to, and
    returns its return code and the new contents of [args]; a visitor that
    calls back into fs.c is not covered.  Both [dassert]s of the loop hold
    for every node of the list. *)
Fixpoint scan_list_loop {A : Type}
    (fs_scan_cb : efs_fs_list_entry -> A -> Z * A)
    (rest : list struct_efs_fs_node) (args : A) : Z * A :=
  match rest with
  | [] => (0, args)
  | fs_node :: rest' =>
      let '(rc, args') := fs_scan_cb (list_entry_of fs_node) args in
      if negb (rc =? 0) then (rc, args')
      else scan_list_loop fs_scan_cb rest' args'
  end.

(** [efs_fs_scan_list] *)
Definition efs_fs_scan_list {A : Type}
    (fs_scan_cb : efs_fs_list_entry -> A -> Z * A) (args : A)
  : M X (Z * A) :=
  do l <- get_list X;
  ret X (scan_list_loop fs_scan_cb l args).

(** A call into a collaborator of [TreeExternals]; these calls are not
    written to the event log. *)
Definition treecall {A} (f : store X -> A * store X) : M X A :=
  fun w => let '(a, s) := f (ext w) in
           Done (a, {| fs_list := fs_list w; mem := mem w; ext := s;
                       log := log w |}).

(** [efs_fs_open].  The second component of the result is what the call
    stored in [*ret_fs]; [None] when it stored nothing.  The fid read with
    [ns_get_fid] is not used. *)
Definition efs_fs_open (fs_name : string) : M X (Z * option nat) :=
  let name := str256_from_cstr T fs_name in
  do l <- get_list X;
  let '(rc, fs) := efs_fs_lookup name l in
  if negb (rc =? 0) then ret X (- ENOENT, None)
  else
    do fs_node <- deref X fs;
    do block <-
      match kvtree (efs_fs fs_node) with
      | Some k => ret X (Some (Some k))
      | None =>
          do p <- do_malloc X;
          match p with
          | Some _ => ret X (Some None)
          | None => ret X None
          end
      end;
    match block with
    | None => ret X (- ENOMEM, None)
    | Some contents =>
        do '(rc, k) <- treecall (kvtree_init T (ns (efs_fs fs_node)) contents);
        run assign X fs (set_kvtree (Some k));
        ret X (rc, fs)
    end.

(** [efs_fs_close] *)
Definition efs_fs_close (efs_fs_p : option nat) : M X unit :=
  do fs_node <- deref X efs_fs_p;
  fun w =>
    match kvtree_fini T (kvtree (efs_fs fs_node)) (ext w) with
    | Halted h => Halted h
    | Done (k, s) =>
        Done (tt, {| fs_list :=
                       alter (set_kvtree
                                (match kvtree (efs_fs fs_node) with
                                 | Some _ => Some k
                                 | None => None
                                 end))
                             (default 0%nat efs_fs_p) (fs_list w);
                     mem := mem w; ext := s; log := log w |})
    end.

(** The blocks that the nodes of a list occupy. *)
Definition blocks_of (l : list struct_efs_fs_node) : list addr :=
  l ≫= (fun fs_node => [ns_blk (efs_fs fs_node); node_blk fs_node]).

End Handles.

Arguments efs_fs_scan_list {X A} fs_scan_cb args w.
Arguments efs_fs_open {X} T fs_name w.
Arguments efs_fs_close {X} T efs_fs_p w.

(** A tree backend for the sample stores: [rc_init] is the return code of
    [kvtree_init]. *)
Definition sample_tree (f : faults) (dassert_on : bool) (rc_init : Z)
  : TreeExternals (sample f dassert_on) :=
  {| str256_from_cstr := fun s => s;
     kvtree_init := fun n _ d => (rc_init, KvTree (ns_id n), d);
     kvtree_fini := fun k d => Done (default (KvTree 0) k, d) |}.

(** A visitor that collects the entries it is shown. *)
Definition collect (e : efs_fs_list_entry) (seen : list efs_fs_list_entry)
  : Z * list efs_fs_list_entry :=
  (0, seen ++ [e]).

(** A visitor that refuses the entry named [bad]. *)
Definition collect_until (bad : str256_t) (e : efs_fs_list_entry)
    (seen : list efs_fs_list_entry) : Z * list efs_fs_list_entry :=
  if decide (fs_name e = bad) then (- EINVAL, seen) else (0, seen ++ [e]).

(** A heap in which [room] more blocks can be allocated, and whose fresh
    blocks hold [junk] where a tenant pointer is read. *)
Definition heap_with (blocks : list addr) (room : nat)
    (junk : option struct_tenant) : heap :=
  {| live := blocks; brk := S (foldr Nat.max 0%nat blocks);
     heap_limit := (length blocks + room)%nat; stale := fun _ => junk |}.

(** The node of a filesystem loaded at startup, never opened. *)
Definition loaded_node (id : Z) (name : str256_t) (t : option struct_tenant)
    (ns_p node_p : addr) : struct_efs_fs_node :=
  {| efs_fs := {| ns := sample_ns id name; ns_blk := ns_p; tenant := t;
                  kvtree := None |};
     node_blk := node_p |}.

(** ** Lemmas on strings and on the lookup *)

Lemma compare_self (a : string) : String.compare a a = Eq.
Proof.
  pose proof (String.compare_antisym a a) as H.
  destruct (String.compare a a); done.
Qed.

Lemma str256_cmp_eq (a b : str256_t) : str256_cmp a b = 0 <-> a = b.
Proof.
  unfold str256_cmp. split.
  - destruct (String.compare a b) eqn:E; try lia.
    intros _. by apply String.compare_eq_iff.
  - intros ->. by rewrite compare_self.
Qed.

Lemma str256_cmp_refl (a : str256_t) : (str256_cmp a a =? 0) = true.
Proof. apply Z.eqb_eq, str256_cmp_eq. done. Qed.

Lemma str256_cmp_neq (a b : str256_t) :
  a <> b -> (str256_cmp a b =? 0) = false.
Proof. intros H. apply Z.eqb_neq. rewrite str256_cmp_eq. done. Qed.

Lemma lookup_absent name l :
  name ∉ fs_names l -> efs_fs_lookup name l = (- ENOENT, None).
Proof.
  induction l as [|n l IH]; cbn; [done|].
  intros H. apply not_elem_of_cons in H as [Hne Hnot].
  unfold efs_fs_get_name in Hne. rewrite str256_cmp_neq by done.
  rewrite IH by done. done.
Qed.

Lemma lookup_present name l :
  name ∈ fs_names l ->
  exists i n, efs_fs_lookup name l = (0, Some i) /\ l !! i = Some n /\
              efs_fs_get_name (efs_fs n) = name.
Proof.
  induction l as [|n l IH]; cbn; [by intros ?%elem_of_nil|].
  intros H.
  destruct (decide (name = efs_fs_get_name (efs_fs n))) as [->|Hne].
  - exists 0%nat, n. unfold efs_fs_get_name. rewrite str256_cmp_refl. done.
  - apply elem_of_cons in H as [H|H]; [done|].
    destruct (IH H) as (i & m & -> & Hi & Hm).
    unfold efs_fs_get_name in Hne. rewrite str256_cmp_neq by done.
    exists (S i), m. done.
Qed.

Lemma lookup_cases name l :
  (exists i n, efs_fs_lookup name l = (0, Some i) /\ l !! i = Some n /\
              efs_fs_get_name (efs_fs n) = name) \/
  (efs_fs_lookup name l = (- ENOENT, None) /\ name ∉ fs_names l).
Proof.
  destruct (decide (name ∈ fs_names l)) as [H|H].
  - left. by apply lookup_present.
  - right. split; [by apply lookup_absent | done].
Qed.

Lemma lookup_names name l l' :
  fs_names l = fs_names l' -> efs_fs_lookup name l = efs_fs_lookup name l'.
Proof.
  revert l'. induction l as [|n l IH]; intros [|n' l'] H; try done.
  cbn in H. injection H as Hn Hl. cbn.
  unfold efs_fs_get_name in Hn. rewrite Hn, (IH l' Hl). done.
Qed.

Lemma found_name name l n :
  found name l = Some n -> efs_fs_get_name (efs_fs n) = name.
Proof.
  unfold found. destruct (lookup_cases name l) as [(i & m & -> & Hi & Hm)|[-> _]].
  - rewrite Hi. by intros [= <-].
  - done.
Qed.

Lemma found_lookup name l n :
  found name l = Some n ->
  exists i, efs_fs_lookup name l = (0, Some i) /\ l !! i = Some n.
Proof.
  unfold found. destruct (lookup_cases name l) as [(i & m & -> & Hi & Hm)|[-> _]].
  - rewrite Hi. intros [= <-]. eauto.
  - done.
Qed.

Lemma found_None name l :
  found name l = None -> efs_fs_lookup name l = (- ENOENT, None).
Proof.
  unfold found. destruct (lookup_cases name l) as [(i & m & -> & Hi & Hm)|[-> _]].
  - rewrite Hi. done.
  - done.
Qed.

Lemma fs_names_alter f i l :
  (forall n, efs_fs_get_name (efs_fs (f n)) = efs_fs_get_name (efs_fs n)) ->
  fs_names (alter f i l) = fs_names l.
Proof.
  intros Hf. unfold fs_names. revert i.
  induction l as [|n l IH]; intros [|i]; cbn; try done.
  - by rewrite Hf.
  - by rewrite IH.
Qed.

Lemma set_tenant_name t n :
  efs_fs_get_name (efs_fs (set_tenant t n)) = efs_fs_get_name (efs_fs n).
Proof. done. Qed.

Lemma set_kvtree_name k n :
  efs_fs_get_name (efs_fs (set_kvtree k n)) = efs_fs_get_name (efs_fs n).
Proof. done. Qed.

Lemma set_tenant_same n :
  set_tenant (tenant (efs_fs n)) n = n.
Proof. by destruct n as [[] ?]. Qed.

Lemma set_tenant_twice t t' n :
  set_tenant t (set_tenant t' n) = set_tenant t n.
Proof. done. Qed.

(** ** Properties of the operations *)

Section Properties.

Variable X : Externals.

Implicit Types (w : world X) (name : str256_t) (l : list struct_efs_fs_node).

(** Unfolds the plumbing of the monad. *)
Ltac plumbing :=
  cbv beta iota delta
    [bind ret crash emit get_list put_list do_malloc do_free extcall
     deref assign dassert uninitialised].

(** After a lookup has been rewritten: compute the test on its result. *)
Ltac looked_up :=
  cbn; try change (- ENOENT =? 0) with false; cbn.

Lemma world_eta w :
  {| fs_list := fs_list w; mem := mem w; ext := ext w; log := log w |} = w.
Proof. by destruct w. Qed.

(** [efs_fs_create] stops at the lookup when the name is registered. *)
Lemma create_registered w name :
  name ∈ fs_names (fs_list w) ->
  efs_fs_create X name w = Done (- EEXIST, w).
Proof.
  intros Hin. destruct (lookup_present name _ Hin) as (i & n & Hl & _).
  unfold efs_fs_create. plumbing. cbn. rewrite Hl. done.
Qed.

(** C4: a create of a name that is already registered returns [-EEXIST]
    and leaves the whole state as it was: the registry (no second node),
    the heap (no block allocated), the stores and the event log (no call
    made). *)
Theorem create_existing_is_rejected w name :
  name ∈ fs_names (fs_list w) ->
  efs_fs_create X name w = Done (- EEXIST, w) /\
  forall w', efs_fs_create X name w = Done (- EEXIST, w') ->
             fs_list w' = fs_list w /\ mem w' = mem w /\
             ext w' = ext w /\ log w' = log w.
Proof.
  intros Hin. rewrite (create_registered _ _ Hin). split; [done|].
  by intros w' [= <-].
Qed.

(** [efs_fs_delete] stops at the tenant test when the filesystem is
    exported. *)
Lemma delete_exported w name fs_node t :
  found name (fs_list w) = Some fs_node ->
  tenant (efs_fs fs_node) = Some t ->
  efs_fs_delete X name w = Done (- EINVAL, w).
Proof.
  intros Hf Ht.
  destruct (found_lookup _ _ _ Hf) as (i & Hl & Hi).
  unfold efs_fs_delete. plumbing. cbn. rewrite Hl. cbn. rewrite Hi, Ht. done.
Qed.

(** C5: deleting a filesystem that has an endpoint binding returns
    [-EINVAL] and leaves the whole state as it was; the lookup of the name
    still finds the node, with its binding attached. *)
Theorem delete_exported_is_rejected w name fs_node t :
  found name (fs_list w) = Some fs_node ->
  tenant (efs_fs fs_node) = Some t ->
  exists w',
    efs_fs_delete X name w = Done (- EINVAL, w') /\
    w' = w /\
    found name (fs_list w') = Some fs_node /\
    endpoint_info name (fs_list w') = tenant_get_info t.
Proof.
  intros Hf Ht. exists w. rewrite (delete_exported _ _ _ _ Hf Ht).
  unfold endpoint_info, efs_fs_endpoint_info. by rewrite Hf, Ht.
Qed.

(** *** Endpoint bindings *)

Lemma alter_alter_back (f g : struct_efs_fs_node -> struct_efs_fs_node) i l n :
  l !! i = Some n -> f (g n) = n -> alter f i (alter g i l) = l.
Proof.
  revert i. induction l as [|m l IH]; intros [|i] Hi Hfg; try done.
  - cbn in *. injection Hi as ->. by rewrite Hfg.
  - cbn in *. by rewrite (IH i).
Qed.

(** What a successful [efs_endpoint_create] did. *)
Lemma endpoint_create_done w name opts rc w' :
  efs_endpoint_create X name opts w = Done (rc, w') ->
  rc = 0 ->
  exists i n tn s,
    efs_fs_lookup name (fs_list w) = (0, Some i) /\
    fs_list w !! i = Some n /\
    tenant (efs_fs n) = None /\
    tenant_create X name (efs_get_ns_id (efs_fs n)) opts (ext w) = (0, tn, s) /\
    fs_list w' = alter (set_tenant tn) i (fs_list w) /\
    mem w' = mem w.
Proof.
  unfold efs_endpoint_create. plumbing. cbn.
  destruct (lookup_cases name (fs_list w)) as [(i & n & Hl & Hi & _)|[Hl _]];
    rewrite Hl; cbn; [|intros [= <- _]; done].
  rewrite Hi. destruct (tenant (efs_fs n)) eqn:Ht; [intros [= <- _]; done|].
  destruct (tenant_create X name _ opts (ext w)) as [[rc1 tn] s] eqn:Hc.
  cbn. destruct (rc1 =? 0) eqn:Hrc; cbn.
  - apply Z.eqb_eq in Hrc as ->. rewrite Hi. intros [= <- <-] _.
    exists i, n, tn, s. done.
  - apply Z.eqb_neq in Hrc. intros [= <- _] ?. done.
Qed.

(** What a successful [efs_endpoint_delete] did. *)
Lemma endpoint_delete_done w name rc w' :
  efs_endpoint_delete X name w = Done (rc, w') ->
  rc = 0 ->
  exists i n t,
    efs_fs_lookup name (fs_list w) = (0, Some i) /\
    fs_list w !! i = Some n /\
    tenant (efs_fs n) = Some t /\
    fs_list w' = alter (set_tenant None) i (fs_list w) /\
    mem w' = mem w.
Proof.
  unfold efs_endpoint_delete. plumbing. cbn.
  destruct (lookup_cases name (fs_list w)) as [(i & n & Hl & Hi & _)|[Hl _]];
    rewrite Hl; cbn; [|intros [= <- _]; done].
  rewrite Hi. destruct (tenant (efs_fs n)) as [t|] eqn:Ht;
    [|intros [= <- _]; done].
  destruct (tenant_delete X t (ext w)) as [rc1 s] eqn:Hd.
  cbn. destruct (rc1 =? 0) eqn:Hrc; cbn.
  - rewrite Hi. intros [= <- <-] _. exists i, n, t. done.
  - apply Z.eqb_neq in Hrc. intros [= <- _] ?. done.
Qed.

(** [efs_endpoint_delete] on a name that is not registered. *)
Lemma endpoint_delete_absent w name :
  found name (fs_list w) = None ->
  efs_endpoint_delete X name w = Done (- ENOENT, w).
Proof.
  intros Hf%found_None. unfold efs_endpoint_delete. plumbing. cbn.
  rewrite Hf. done.
Qed.

(** [efs_endpoint_delete] on a filesystem without binding. *)
Lemma endpoint_delete_unbound w name fs_node :
  found name (fs_list w) = Some fs_node ->
  tenant (efs_fs fs_node) = None ->
  efs_endpoint_delete X name w = Done (- ENOENT, w).
Proof.
  intros (i & Hl & Hi)%found_lookup Ht.
  unfold efs_endpoint_delete. plumbing. cbn.
  rewrite Hl. cbn. rewrite Hi, Ht. done.
Qed.

(** [efs_endpoint_create] when the tenant store creates the record. *)
Lemma endpoint_create_ok w name opts i fs_node tn s :
  efs_fs_lookup name (fs_list w) = (0, Some i) ->
  fs_list w !! i = Some fs_node ->
  tenant (efs_fs fs_node) = None ->
  tenant_create X name (efs_get_ns_id (efs_fs fs_node)) opts (ext w) =
    (0, tn, s) ->
  efs_endpoint_create X name opts w =
    Done (0, mk_world (alter (set_tenant tn) i (fs_list w)) (mem w) s
                (log w ++ [EvTenantCreate name (efs_get_ns_id (efs_fs fs_node))
                                          opts])).
Proof.
  intros Hl Hi Ht Hc. unfold efs_endpoint_create. plumbing. cbn.
  rewrite Hl. cbn. rewrite Hi, Ht, Hc. cbn. rewrite Hi. done.
Qed.

(** [efs_endpoint_delete] when the tenant store deletes the record. *)
Lemma endpoint_delete_ok w name i fs_node t s :
  efs_fs_lookup name (fs_list w) = (0, Some i) ->
  fs_list w !! i = Some fs_node ->
  tenant (efs_fs fs_node) = Some t ->
  tenant_delete X t (ext w) = (0, s) ->
  efs_endpoint_delete X name w =
    Done (0, mk_world (alter (set_tenant None) i (fs_list w)) (mem w) s
                (log w ++ [EvTenantDelete t; EvFreeTenant t])).
Proof.
  intros Hl Hi Ht Hd. unfold efs_endpoint_delete. plumbing. cbn.
  rewrite Hl. cbn. rewrite Hi, Ht, Hd. cbn. rewrite Hi.
  rewrite <- !app_assoc. done.
Qed.

(** C8: on a registered filesystem without binding, whenever
    [efs_endpoint_create] and then [efs_endpoint_delete] return [0], the
    registry is back to the list it started from, the endpoint info of the
    name is absent and a further [efs_endpoint_delete] returns [-ENOENT];
    both calls do return [0] when the tenant store creates and then
    deletes the record, and in between the endpoint info is the one of the
    record.  [efs_endpoint_delete] also returns [-ENOENT] on any filesystem
    without binding and on any name that is not registered. *)
Theorem endpoint_create_delete_restores w name opts fs_node :
  found name (fs_list w) = Some fs_node ->
  tenant (efs_fs fs_node) = None ->
  (forall w1 w2,
     efs_endpoint_create X name opts w = Done (0, w1) ->
     efs_endpoint_delete X name w1 = Done (0, w2) ->
     fs_list w2 = fs_list w /\
     endpoint_info name (fs_list w2) = None /\
     efs_endpoint_delete X name w2 = Done (- ENOENT, w2)) /\
  (forall tn s1 s2,
     tenant_create X name (efs_get_ns_id (efs_fs fs_node)) opts (ext w) =
       (0, Some tn, s1) ->
     tenant_delete X tn s1 = (0, s2) ->
     exists w1 w2,
       efs_endpoint_create X name opts w = Done (0, w1) /\
       endpoint_info name (fs_list w1) = tenant_get_info tn /\
       efs_endpoint_delete X name w1 = Done (0, w2)) /\
  (forall w0 n0, found name (fs_list w0) = Some n0 ->
                 tenant (efs_fs n0) = None ->
                 efs_endpoint_delete X name w0 = Done (- ENOENT, w0)) /\
  (forall w0, found name (fs_list w0) = None ->
              efs_endpoint_delete X name w0 = Done (- ENOENT, w0)).
Proof.
  intros Hf Ht. destruct (found_lookup _ _ _ Hf) as (i & Hl & Hi).
  split; [|split; [|split]].
  - intros w1 w2 Hc Hd.
    destruct (endpoint_create_done _ _ _ _ _ Hc eq_refl)
      as (i' & n & tn & s & Hl0 & Hi0 & _ & _ & Hl1 & _).
    rewrite Hl in Hl0. injection Hl0 as <-.
    destruct (endpoint_delete_done _ _ _ _ Hd eq_refl)
      as (j & m & t & Hl' & _ & _ & Hl2 & _).
    assert (Hnames : fs_names (fs_list w1) = fs_names (fs_list w)).
    { rewrite Hl1. apply fs_names_alter, set_tenant_name. }
    rewrite (lookup_names name _ _ Hnames), Hl in Hl'. injection Hl' as <-.
    assert (Hback : fs_list w2 = fs_list w).
    { rewrite Hl2, Hl1. apply alter_alter_back with fs_node; [done|].
      rewrite set_tenant_twice, <- Ht. apply set_tenant_same. }
    assert (Hf2 : found name (fs_list w2) = Some fs_node) by by rewrite Hback.
    split; [done|]. split.
    { unfold endpoint_info, efs_fs_endpoint_info. by rewrite Hf2, Ht. }
    by apply (endpoint_delete_unbound _ _ fs_node).
  - intros tn s1 s2 Hc Hd.
    pose proof (endpoint_create_ok _ _ _ _ _ _ _ Hl Hi Ht Hc) as Hrun1.
    eexists _, _. split; [exact Hrun1|].
    assert (Hnames : fs_names (alter (set_tenant (Some tn)) i (fs_list w)) =
                     fs_names (fs_list w))
      by apply fs_names_alter, set_tenant_name.
    assert (Hl1 : efs_fs_lookup name (alter (set_tenant (Some tn)) i (fs_list w))
                  = (0, Some i))
      by by rewrite (lookup_names name _ _ Hnames).
    assert (Hi1 : alter (set_tenant (Some tn)) i (fs_list w) !! i =
                  Some (set_tenant (Some tn) fs_node))
      by by rewrite list_lookup_alter_eq, Hi.
    split.
    + unfold endpoint_info, found. cbn. rewrite Hl1, Hi1. done.
    + by apply (endpoint_delete_ok _ _ i (set_tenant (Some tn) fs_node) tn s2).
  - intros w0 n0. apply endpoint_delete_unbound.
  - intros w0. apply endpoint_delete_absent.
Qed.

(** C10: when the tenant store refuses to delete the persisted binding,
    [efs_endpoint_delete] returns the store's return code as it is and the
    registry is untouched: the binding is still attached and the endpoint
    info of the name is still the one of the binding. *)
Theorem endpoint_delete_store_failure w name fs_node t rc s :
  found name (fs_list w) = Some fs_node ->
  tenant (efs_fs fs_node) = Some t ->
  tenant_delete X t (ext w) = (rc, s) ->
  rc <> 0 ->
  exists w',
    efs_endpoint_delete X name w = Done (rc, w') /\
    fs_list w' = fs_list w /\
    found name (fs_list w') = Some fs_node /\
    endpoint_info name (fs_list w') = tenant_get_info t /\
    mem w' = mem w /\
    log w' = log w ++ [EvTenantDelete t].
Proof.
  intros Hf Ht Hd Hrc.
  destruct (found_lookup _ _ _ Hf) as (i & Hl & Hi).
  unfold efs_endpoint_delete. plumbing. cbn.
  rewrite Hl. cbn. rewrite Hi, Ht, Hd. cbn.
  apply Z.eqb_neq in Hrc. rewrite Hrc. cbn.
  eexists. split; [done|]. cbn. repeat split; try done.
  unfold endpoint_info, efs_fs_endpoint_info. by rewrite Hf, Ht.
Qed.

(** *** Create *)

(** What a successful [efs_fs_create] did. *)
Lemma create_done w name w' :
  efs_fs_create X name w = Done (0, w') ->
  (name ∉ fs_names (fs_list w)) /\
  exists node_p h1 n ns_size s1 ns_p h2 kvt s2 s3,
    malloc (mem w) = (Some node_p, h1) /\
    ns_create X name (ext w) = (0, n, ns_size, s1) /\
    malloc h1 = (Some ns_p, h2) /\
    kvtree_create X n (root_bufstat X) s1 = (0, kvt, s2) /\
    efs_tree_create_root X (created_fs n ns_p kvt) s2 = (0, s3) /\
    fs_list w' =
      {| efs_fs := created_fs n ns_p kvt; node_blk := node_p |} :: fs_list w /\
    mem w' = h2 /\ ext w' = s3.
Proof.
  unfold efs_fs_create. plumbing. cbn.
  destruct (lookup_cases name (fs_list w)) as [(i & m & Hl & _)|[Hl Hnot]];
    rewrite Hl; looked_up; [intros [=]|].
  destruct (malloc (mem w)) as [[node_p|] h1] eqn:Hm1; cbn; [|intros [=]].
  destruct (ns_create X name (ext w)) as [[[rc1 n] ns_size] s1] eqn:Hn. cbn.
  destruct (rc1 =? 0) eqn:Hrc1; cbn;
    [apply Z.eqb_eq in Hrc1 as -> | apply Z.eqb_neq in Hrc1; intros [= ? _]; done].
  destruct (malloc h1) as [[ns_p|] h2] eqn:Hm2; cbn; [|intros [=]].
  destruct (kvtree_create X n (root_bufstat X) s1) as [[rc2 kvt] s2] eqn:Hk. cbn.
  destruct (rc2 =? 0) eqn:Hrc2; cbn;
    [apply Z.eqb_eq in Hrc2 as -> | apply Z.eqb_neq in Hrc2; intros [= ? _]; done].
  fold (created_fs n ns_p kvt).
  destruct (efs_tree_create_root X (created_fs n ns_p kvt) s2) as [rc3 s3] eqn:Hr.
  cbn. destruct (rc3 =? 0) eqn:Hrc3; cbn;
    [apply Z.eqb_eq in Hrc3 as -> | apply Z.eqb_neq in Hrc3; intros [= ? _]; done].
  intros [= <-]. split; [done|].
  exists node_p, h1, n, ns_size, s1, ns_p, h2, kvt, s2, s3. done.
Qed.

(** [efs_fs_create] when both allocations and the three calls succeed. *)
Lemma create_succeeds w name node_p h1 n ns_size s1 ns_p h2 kvt s2 s3 :
  name ∉ fs_names (fs_list w) ->
  malloc (mem w) = (Some node_p, h1) ->
  ns_create X name (ext w) = (0, n, ns_size, s1) ->
  malloc h1 = (Some ns_p, h2) ->
  kvtree_create X n (root_bufstat X) s1 = (0, kvt, s2) ->
  efs_tree_create_root X (created_fs n ns_p kvt) s2 = (0, s3) ->
  efs_fs_create X name w =
    Done (0, mk_world
               ({| efs_fs := created_fs n ns_p kvt; node_blk := node_p |}
                :: fs_list w)
               h2 s3
               (log w ++ [EvNsCreate name; EvKvtreeCreate n (root_bufstat X);
                          EvTreeCreateRoot (created_fs n ns_p kvt);
                          EvListInsertHead (ns_get_name n)])).
Proof.
  intros Hnot Hm1 Hn Hm2 Hk Hr. unfold efs_fs_create. plumbing. cbn.
  rewrite (lookup_absent _ _ Hnot). looked_up.
  rewrite Hm1. cbn. rewrite Hn. cbn. rewrite Hm2. cbn. rewrite Hk. cbn.
  fold (created_fs n ns_p kvt). rewrite Hr. cbn.
  rewrite <- !app_assoc. done.
Qed.

(** C7: when the namespace store names the namespace it creates as asked,
    a create of a name that was not registered, once it has returned [0],
    is followed by a successful lookup of that name, and the node found
    bears the name; and the create does return [0] when its two
    allocations and its three calls succeed. *)
Theorem create_then_lookup w name :
  ns_create_keeps_name X ->
  name ∉ fs_names (fs_list w) ->
  (forall w',
     efs_fs_create X name w = Done (0, w') ->
     exists i fs_node,
       efs_fs_lookup name (fs_list w') = (0, Some i) /\
       fs_list w' !! i = Some fs_node /\
       efs_fs_get_name (efs_fs fs_node) = name) /\
  (forall node_p h1 n ns_size s1 ns_p h2 kvt s2 s3,
     malloc (mem w) = (Some node_p, h1) ->
     ns_create X name (ext w) = (0, n, ns_size, s1) ->
     malloc h1 = (Some ns_p, h2) ->
     kvtree_create X n (root_bufstat X) s1 = (0, kvt, s2) ->
     efs_tree_create_root X (created_fs n ns_p kvt) s2 = (0, s3) ->
     exists w', efs_fs_create X name w = Done (0, w')).
Proof.
  intros Hstore Hnot. split.
  - intros w' Hc.
    destruct (create_done _ _ _ Hc)
      as (_ & node_p & h1 & n & sz & s1 & ns_p & h2 & kvt & s2 & s3 &
          _ & Hn & _ & _ & _ & Hl & _).
    apply lookup_present. rewrite Hl. cbn.
    unfold efs_fs_get_name at 1. cbn. rewrite (Hstore _ _ _ _ _ Hn).
    apply elem_of_cons. by left.
  - intros node_p h1 n ns_size s1 ns_p h2 kvt s2 s3 Hm1 Hn Hm2 Hk Hr.
    eexists. by apply (create_succeeds _ _ node_p h1 n ns_size s1 ns_p h2 kvt s2 s3).
Qed.

Lemma not_elem_of_free p h : p ∉ live (free p h).
Proof. cbn. intros [H _]%list_elem_of_filter. done. Qed.

(** C2, as the code has it: when [efs_fs_create] fails after [ns_create]
    has succeeded, it returns the return code of the step that failed
    ([kvtree_create] or [efs_tree_create_root]), [fs_list] is as before, the
    node block is freed, and the only calls made are the ones up to the
    failing step: no call deletes the namespace, and the stores are left as
    the failing step left them. *)
Theorem create_failure_after_ns_create
    w name rc w' node_p h1 n ns_size s1 :
  name ∉ fs_names (fs_list w) ->
  malloc (mem w) = (Some node_p, h1) ->
  ns_create X name (ext w) = (0, n, ns_size, s1) ->
  efs_fs_create X name w = Done (rc, w') ->
  rc <> 0 ->
  fs_list w' = fs_list w /\
  (node_p ∉ live (mem w')) /\
  exists ns_p h2 kvt s2,
    malloc h1 = (Some ns_p, h2) /\
    ((kvtree_create X n (root_bufstat X) s1 = (rc, kvt, s2) /\
      ext w' = s2 /\
      log w' = log w ++ [EvNsCreate name; EvKvtreeCreate n (root_bufstat X)])
     \/
     (exists s3,
        kvtree_create X n (root_bufstat X) s1 = (0, kvt, s2) /\
        efs_tree_create_root X (created_fs n ns_p kvt) s2 = (rc, s3) /\
        ext w' = s3 /\
        log w' = log w ++ [EvNsCreate name; EvKvtreeCreate n (root_bufstat X);
                           EvTreeCreateRoot (created_fs n ns_p kvt)])).
Proof.
  intros Hnot Hm1 Hn. unfold efs_fs_create. plumbing. cbn.
  rewrite (lookup_absent _ _ Hnot). looked_up. rewrite Hm1. cbn. rewrite Hn. cbn.
  destruct (malloc h1) as [[ns_p|] h2] eqn:Hm2; cbn; [|intros [=]].
  destruct (kvtree_create X n (root_bufstat X) s1) as [[rc2 kvt] s2] eqn:Hk. cbn.
  destruct (rc2 =? 0) eqn:Hrc2; cbn.
  - apply Z.eqb_eq in Hrc2 as ->. fold (created_fs n ns_p kvt).
    destruct (efs_tree_create_root X (created_fs n ns_p kvt) s2)
      as [rc3 s3] eqn:Hr.
    cbn. destruct (rc3 =? 0) eqn:Hrc3; cbn.
    + apply Z.eqb_eq in Hrc3 as ->. intros [= <- _] ?. done.
    + intros [= <- <-] _. cbn. split; [done|]. split.
      { apply (not_elem_of_free node_p h2). }
      exists ns_p, h2, kvt, s2. split; [done|]. right. exists s3.
      rewrite <- !app_assoc. done.
  - intros [= <- <-] _. cbn. split; [done|]. split.
    { apply (not_elem_of_free node_p h2). }
    exists ns_p, h2, kvt, s2. split; [done|]. left.
    rewrite <- !app_assoc. done.
Qed.

(** *** Delete *)

Lemma delete_alter_same (f : struct_efs_fs_node -> struct_efs_fs_node) i l :
  delete i (alter f i l) = delete i l.
Proof.
  revert i. induction l as [|n l IH]; intros [|i]; cbn; try done.
  by rewrite IH.
Qed.

(** [efs_fs_delete] on a registered filesystem without binding, step by
    step: the first collaborator that fails ends the call with its return
    code; [fs_list] loses the node after [kvtree_delete] has succeeded and
    before [ns_delete] is called. *)
Lemma delete_unbound w name i fs_node :
  efs_fs_lookup name (fs_list w) = (0, Some i) ->
  fs_list w !! i = Some fs_node ->
  tenant (efs_fs fs_node) = None ->
  let fs := efs_fs fs_node in
  exists rc1 s1,
    efs_tree_delete_root X fs (ext w) = (rc1, s1) /\
    ((rc1 <> 0 /\
      efs_fs_delete X name w =
        Done (rc1, mk_world (fs_list w) (mem w) s1 (log w ++ [EvTreeDeleteRoot fs])))
     \/
     (rc1 = 0 /\ exists rc2 s2,
        kvtree_delete X (kvtree fs) s1 = (rc2, s2) /\
        ((rc2 <> 0 /\
          efs_fs_delete X name w =
            Done (rc2, mk_world (fs_list w) (mem w) s2
                         (log w ++ [EvTreeDeleteRoot fs;
                                    EvKvtreeDelete (kvtree fs)])))
         \/
         (rc2 = 0 /\ exists rc3 s3,
            ns_delete X (ns fs) s2 = (rc3, s3) /\
            efs_fs_delete X name w =
              Done (rc3, mk_world (delete i (fs_list w)) (mem w) s3
                           (log w ++ delete_events name fs)))))).
Proof.
  intros Hl Hi Ht fs. unfold efs_fs_delete. plumbing. cbn.
  rewrite Hl. cbn. rewrite Hi, Ht. cbn.
  destruct (efs_tree_delete_root X (efs_fs fs_node) (ext w)) as [rc1 s1] eqn:H1.
  exists rc1, s1. split; [done|]. cbn.
  destruct (rc1 =? 0) eqn:Hrc1; cbn;
    [apply Z.eqb_eq in Hrc1 as -> | apply Z.eqb_neq in Hrc1; by left].
  right. split; [done|].
  destruct (kvtree_delete X (kvtree (efs_fs fs_node)) s1) as [rc2 s2] eqn:H2.
  exists rc2, s2. split; [done|]. cbn.
  destruct (rc2 =? 0) eqn:Hrc2; cbn;
    [apply Z.eqb_eq in Hrc2 as ->
    | apply Z.eqb_neq in Hrc2; left; split; [done|];
      rewrite <- !app_assoc; reflexivity].
  right. split; [done|]. rewrite Hi. cbn.
  destruct (ns_delete X (ns (efs_fs fs_node)) s2) as [rc3 s3] eqn:H3.
  exists rc3, s3. split; [done|]. cbn.
  rewrite delete_alter_same. unfold delete_events.
  rewrite <- !app_assoc. reflexivity.
Qed.

(** [efs_fs_delete] on a name that is not registered. *)
Lemma delete_absent w name :
  name ∉ fs_names (fs_list w) ->
  efs_fs_delete X name w = Done (- ENOENT, w).
Proof.
  intros H. unfold efs_fs_delete. plumbing. cbn.
  rewrite (lookup_absent _ _ H). done.
Qed.

(** When [efs_tree_delete_root] or [kvtree_delete] fails, the node stays
    in [fs_list]. *)
Lemma delete_early_failure_keeps_entry w name fs_node rc w' :
  found name (fs_list w) = Some fs_node ->
  tenant (efs_fs fs_node) = None ->
  efs_fs_delete X name w = Done (rc, w') ->
  (exists s, efs_tree_delete_root X (efs_fs fs_node) (ext w) = (rc, s) /\ rc <> 0) \/
  (exists s1 s2, efs_tree_delete_root X (efs_fs fs_node) (ext w) = (0, s1) /\
                 kvtree_delete X (kvtree (efs_fs fs_node)) s1 = (rc, s2) /\
                 rc <> 0) ->
  fs_list w' = fs_list w.
Proof.
  intros (i & Hl & Hi)%found_lookup Ht Hd Hfail.
  destruct (delete_unbound _ _ _ _ Hl Hi Ht) as (rc1 & s1 & H1 & Hcases).
  destruct Hfail as [(s & Hs & Hrc)|(t1 & t2 & Hs1 & Hs2 & Hrc)].
  - rewrite Hs in H1. injection H1 as <- <-.
    destruct Hcases as [[_ Hr]|[? _]]; [|done].
    rewrite Hr in Hd. by injection Hd as <-.
  - rewrite Hs1 in H1. injection H1 as <- <-.
    destruct Hcases as [[? _]|[_ (rc2 & s2 & H2 & Hcases)]]; [done|].
    rewrite Hs2 in H2. injection H2 as <- <-.
    destruct Hcases as [[_ Hr]|[? _]]; [|done].
    rewrite Hr in Hd. by injection Hd as <-.
Qed.

(** When [ns_delete] fails after the two tree deletions have succeeded,
    the call returns the error and the node is no longer in [fs_list]. *)
Lemma delete_ns_delete_failure_drops_entry w name i fs_node s1 s2 rc s3 :
  efs_fs_lookup name (fs_list w) = (0, Some i) ->
  fs_list w !! i = Some fs_node ->
  tenant (efs_fs fs_node) = None ->
  efs_tree_delete_root X (efs_fs fs_node) (ext w) = (0, s1) ->
  kvtree_delete X (kvtree (efs_fs fs_node)) s1 = (0, s2) ->
  ns_delete X (ns (efs_fs fs_node)) s2 = (rc, s3) ->
  exists w',
    efs_fs_delete X name w = Done (rc, w') /\
    fs_list w' = delete i (fs_list w) /\
    log w' = log w ++ delete_events name (efs_fs fs_node).
Proof.
  intros Hl Hi Ht H1 H2 H3.
  destruct (delete_unbound _ _ _ _ Hl Hi Ht) as (rc1 & t1 & E1 & Hcases).
  rewrite H1 in E1. injection E1 as <- <-.
  destruct Hcases as [[? _]|[_ (rc2 & t2 & E2 & Hcases)]]; [done|].
  rewrite H2 in E2. injection E2 as <- <-.
  destruct Hcases as [[? _]|[_ (rc3 & t3 & E3 & Hr)]]; [done|].
  rewrite H3 in E3. injection E3 as <- <-.
  eexists. split; [exact Hr|]. done.
Qed.

(** C6, as the code has it: the emptiness check that [efs_fs_delete]
    consults returns [0] for every filesystem, whatever
    [tree_has_children] says of its tree.  So a delete of a registered
    filesystem without binding always goes on to call
    [efs_tree_delete_root], and when it returns an error, the error is the
    return code of [efs_tree_delete_root], [kvtree_delete] or [ns_delete]. *)
Theorem delete_never_stops_at_emptiness_check w name fs_node :
  found name (fs_list w) = Some fs_node ->
  tenant (efs_fs fs_node) = None ->
  let fs := efs_fs fs_node in
  efs_fs_is_empty fs = 0 /\
  exists rc w' evs,
    efs_fs_delete X name w = Done (rc, w') /\
    log w' = log w ++ EvTreeDeleteRoot fs :: evs /\
    exists rc1 s1,
      efs_tree_delete_root X fs (ext w) = (rc1, s1) /\
      (rc1 <> 0 /\ rc = rc1 \/
       rc1 = 0 /\ exists rc2 s2,
         kvtree_delete X (kvtree fs) s1 = (rc2, s2) /\
         (rc2 <> 0 /\ rc = rc2 \/
          rc2 = 0 /\ exists s3, ns_delete X (ns fs) s2 = (rc, s3))).
Proof.
  intros (i & Hl & Hi)%found_lookup Ht fs. split; [done|].
  destruct (delete_unbound _ _ _ _ Hl Hi Ht) as (rc1 & s1 & H1 & Hcases).
  fold fs in H1, Hcases.
  destruct Hcases as [[Hrc1 Hr]|[-> (rc2 & s2 & H2 & Hcases)]].
  { eexists _, _, []. split; [exact Hr|]. split; [done|].
    exists rc1, s1. split; [done|]. by left. }
  destruct Hcases as [[Hrc2 Hr]|[-> (rc3 & s3 & H3 & Hr)]].
  { eexists _, _, [_]. split; [exact Hr|]. split; [done|].
    exists 0, s1. split; [done|]. right. split; [done|].
    exists rc2, s2. split; [done|]. by left. }
  eexists _, _, [_; _; _]. split; [exact Hr|]. split; [done|].
  exists 0, s1. split; [done|]. right. split; [done|].
  exists 0, s2. split; [done|]. right. split; [done|]. by exists s3.
Qed.

(** *** Endpoint loading at startup *)

Lemma last_named_nodup tn records :
  NoDup (tenant_get_name <$> records) ->
  tn ∈ records ->
  last_named (tenant_get_name tn) records = Some tn.
Proof.
  induction records as [|t rest IH]; cbn; [by intros _ ?%elem_of_nil|].
  intros [Hnot Hnd]%NoDup_cons [->|Hin]%elem_of_cons.
  - destruct (last_named (tenant_get_name t) rest) as [t'|] eqn:E.
    + exfalso. apply Hnot. clear -E.
      induction rest as [|r rest IH]; cbn in *; [done|].
      destruct (last_named (tenant_get_name t) rest); [right; by apply IH|].
      destruct (decide (tenant_get_name r = tenant_get_name t)) as [->|];
        [by left|done].
    + by rewrite decide_True.
  - by rewrite (IH Hnd Hin).
Qed.

(** The node found under [name] after the node found under [name'] has
    been given the tenant [t]. *)
Lemma found_after_set_tenant name name' t l i :
  efs_fs_lookup name' l = (0, Some i) ->
  found name (alter (set_tenant t) i l) =
    if decide (name = name') then set_tenant t <$> found name l
    else found name l.
Proof.
  intros Hl'.
  assert (Hnames : fs_names (alter (set_tenant t) i l) = fs_names l)
    by apply fs_names_alter, set_tenant_name.
  unfold found. rewrite (lookup_names name _ _ Hnames).
  destruct (lookup_cases name l) as [(j & n & Hl & Hj & Hn)|[Hl _]];
    rewrite Hl; [|by destruct (decide _)].
  destruct (decide (name = name')) as [->|Hne].
  - rewrite Hl in Hl'. injection Hl' as <-.
    by rewrite list_lookup_alter_eq.
  - rewrite list_lookup_alter_ne; [done|]. intros ->.
    destruct (lookup_cases name' l) as [(j' & n' & Hl'' & Hj' & Hn')|[Hl'' _]];
      rewrite Hl' in Hl''; [|done].
    injection Hl'' as <-. congruence.
Qed.

(** The callback on a record whose filesystem is registered. *)
Lemma scan_cb_matched w tn i :
  efs_fs_lookup (tenant_get_name tn) (fs_list w) = (0, Some i) ->
  endpoint_tenant_scan_cb X (Some tn) w =
    Done (0, mk_world (alter (set_tenant (Some tn)) i (fs_list w))
                      (mem w) (ext w) (log w)).
Proof.
  intros Hl.
  destruct (lookup_cases (tenant_get_name tn) (fs_list w))
    as [(j & n & Hl' & Hj & _)|[Hl' _]]; rewrite Hl in Hl'; [|done].
  injection Hl' as <-.
  unfold endpoint_tenant_scan_cb. plumbing. cbn. rewrite Hl. cbn.
  rewrite Hj. done.
Qed.

(** The callback on a record whose filesystem is not registered. *)
Lemma scan_cb_orphan w tn :
  tenant_get_name tn ∉ fs_names (fs_list w) ->
  endpoint_tenant_scan_cb X (Some tn) w = Halted (halt_on_orphan X).
Proof.
  intros Hnot. unfold endpoint_tenant_scan_cb, halt_on_orphan. plumbing. cbn.
  rewrite (lookup_absent _ _ Hnot). looked_up.
  by destruct (dassert_enabled X).
Qed.

Lemma scan_loop_matched rc_end tns : forall w,
  (forall tn, tn ∈ tns -> tenant_get_name tn ∈ fs_names (fs_list w)) ->
  exists l',
    tenant_scan_loop X (endpoint_tenant_scan_cb X) (Some <$> tns) rc_end w =
      Done (rc_end, mk_world l' (mem w) (ext w) (log w)) /\
    fs_names l' = fs_names (fs_list w) /\
    forall name,
      found name l' =
        match last_named name tns with
        | Some t => set_tenant (Some t) <$> found name (fs_list w)
        | None => found name (fs_list w)
        end.
Proof.
  induction tns as [|tn tns IH]; intros w Hall.
  - exists (fs_list w). cbn. unfold ret. rewrite world_eta. done.
  - assert (Hin : tenant_get_name tn ∈ fs_names (fs_list w))
      by (apply Hall, elem_of_cons; by left).
    destruct (lookup_present _ _ Hin) as (i & n & Hl & Hi & Hn).
    cbn [fmap list_fmap tenant_scan_loop]. unfold bind at 1.
    rewrite (scan_cb_matched _ _ _ Hl). cbn [Z.eqb].
    set (w1 := mk_world _ _ _ _).
    assert (Hnames : fs_names (fs_list w1) = fs_names (fs_list w))
      by apply fs_names_alter, set_tenant_name.
    destruct (IH w1) as (l' & Hrun & Hn' & Hfound).
    { intros t Ht. rewrite Hnames. apply Hall, elem_of_cons. by right. }
    exists l'. split; [exact Hrun|]. split; [by rewrite Hn'|].
    intros name. rewrite Hfound. cbn [last_named fs_list w1].
    rewrite (found_after_set_tenant name _ _ _ _ Hl).
    destruct (last_named name tns) as [t'|].
    + destruct (decide (name = tenant_get_name tn)) as [->|]; [|done].
      by destruct (found (tenant_get_name tn) (fs_list w)).
    + destruct (decide (tenant_get_name tn = name)) as [<-|Hne].
      * by rewrite decide_True.
      * by rewrite decide_False.
Qed.

Lemma scan_loop_orphan rc_end tn records : forall w,
  Some tn ∈ records ->
  tenant_get_name tn ∉ fs_names (fs_list w) ->
  match tenant_scan_loop X (endpoint_tenant_scan_cb X) records rc_end w with
  | Done (rc, _) => rc <> 0 /\ None ∈ records
  | Halted h => h = halt_on_orphan X
  end.
Proof.
  induction records as [|r records IH]; intros w Hin Hnot.
  { by apply elem_of_nil in Hin. }
  cbn [tenant_scan_loop]. unfold bind at 1.
  destruct r as [t|].
  - destruct (decide (tenant_get_name t ∈ fs_names (fs_list w))) as [Ht|Ht].
    + destruct (lookup_present _ _ Ht) as (i & n & Hl & _).
      rewrite (scan_cb_matched _ _ _ Hl). cbn [Z.eqb].
      set (w1 := mk_world _ _ _ _).
      assert (Hnames : fs_names (fs_list w1) = fs_names (fs_list w))
        by apply fs_names_alter, set_tenant_name.
      apply elem_of_cons in Hin as [[= ->]|Hin]; [done|].
      specialize (IH w1 Hin). rewrite Hnames in IH. specialize (IH Hnot).
      destruct (tenant_scan_loop _ _ _ _ w1) as [[rc w2]|h]; [|done].
      destruct IH as [? ?]. split; [done|]. apply elem_of_cons. by right.
    + by rewrite (scan_cb_orphan _ _ Ht).
  - cbn. unfold ret. split; [done|]. apply elem_of_cons. by left.
Qed.

(** C3: at startup, when every record that the tenant store enumerates
    names a registered filesystem, [efs_endpoint_init] ends normally and
    the node found under the name of a record carries the last record of
    that name, which is the record itself when the names of the records
    are distinct.  When some record names no registered filesystem, the
    initialization does not end normally: the process halts at that
    record, unless a NULL record came first, in which case
    [efs_endpoint_init] returns an error. *)
Theorem endpoint_init_attaches_or_halts w records rc_end s :
  tenant_scan X (ext w) = (records, rc_end, s) ->
  (forall tns,
     records = Some <$> tns ->
     (forall tn, tn ∈ tns -> tenant_get_name tn ∈ fs_names (fs_list w)) ->
     exists w',
       efs_endpoint_init X w = Done (rc_end, w') /\
       fs_names (fs_list w') = fs_names (fs_list w) /\
       forall tn, tn ∈ tns ->
         exists fs_node,
           found (tenant_get_name tn) (fs_list w') = Some fs_node /\
           tenant (efs_fs fs_node) = last_named (tenant_get_name tn) tns /\
           (NoDup (tenant_get_name <$> tns) ->
            tenant (efs_fs fs_node) = Some tn)) /\
  (forall tn,
     Some tn ∈ records ->
     tenant_get_name tn ∉ fs_names (fs_list w) ->
     match efs_endpoint_init X w with
     | Done (rc, _) => rc <> 0 /\ None ∈ records
     | Halted h => h = halt_on_orphan X
     end).
Proof.
  intros Hscan. split.
  - intros tns -> Hall.
    unfold efs_endpoint_init, bind at 1, extcall. rewrite Hscan.
    set (w0 := mk_world _ _ _ _).
    destruct (scan_loop_matched rc_end tns w0 Hall) as (l' & Hrun & Hn & Hf).
    eexists. split; [exact Hrun|]. split; [exact Hn|].
    intros tn Hin. cbn [fs_list].
    destruct (lookup_present _ _ (Hall tn Hin)) as (i & n & Hl & Hi & _).
    assert (Hfound : found (tenant_get_name tn) (fs_list w0) = Some n)
      by (unfold found; cbn; by rewrite Hl).
    assert (Hsome : is_Some (last_named (tenant_get_name tn) tns)).
    { clear -Hin. induction tns as [|t tns IH]; [by apply elem_of_nil in Hin|].
      cbn. destruct (last_named (tenant_get_name tn) tns); [done|].
      apply elem_of_cons in Hin as [->|Hin]; [by rewrite decide_True|].
      by destruct (IH Hin). }
    destruct Hsome as [t' Ht'].
    exists (set_tenant (Some t') n). rewrite Hf, Ht', Hfound.
    split; [done|]. split; [done|].
    intros Hnd. rewrite (last_named_nodup _ _ Hnd Hin) in Ht'.
    injection Ht' as ->. done.
  - intros tn Hin Hnot.
    unfold efs_endpoint_init, bind at 1, extcall. rewrite Hscan.
    by apply scan_loop_orphan with tn.
Qed.

(** *** Uniqueness of the registered names *)

Lemma scan_cb_names n ns_size w :
  exists w',
    fs_ns_scan_cb X n ns_size w = Done (tt, w') /\
    ext w' = ext w /\
    (fs_names (fs_list w') = ns_get_name n :: fs_names (fs_list w) \/
     fs_names (fs_list w') = fs_names (fs_list w)).
Proof.
  unfold fs_ns_scan_cb. plumbing. cbn.
  destruct (malloc (mem w)) as [[node_p|] h1]; cbn; [|eexists; eauto].
  destruct (malloc h1) as [[ns_p|] h2]; cbn; eexists; eauto.
Qed.

Lemma ns_scan_loop_unique records : forall w,
  NoDup (((fun r => ns_get_name r.1) <$> records) ++ fs_names (fs_list w)) ->
  exists w',
    ns_scan_loop X (fs_ns_scan_cb X) records w = Done (tt, w') /\
    NoDup (fs_names (fs_list w')).
Proof.
  induction records as [|[n ns_size] records IH]; intros w Hnd.
  - exists w. done.
  - cbn [ns_scan_loop]. unfold bind at 1.
    destruct (scan_cb_names n ns_size w) as (w1 & -> & _ & Hnames).
    apply IH. cbn in Hnd.
    destruct Hnames as [-> | ->].
    + by rewrite <- Permutation_middle.
    + by apply NoDup_cons in Hnd as [_ ?].
Qed.

Lemma fini_loop_empties l : forall w,
  fs_list w = l ->
  exists w', fini_loop X l w = Done (tt, w') /\ fs_list w' = [].
Proof.
  induction l as [|n l IH]; intros w Hw.
  - exists w. done.
  - cbn [fini_loop]. plumbing. cbn. apply IH. done.
Qed.

Lemma scan_loop_names records rc_end : forall w rc w',
  tenant_scan_loop X (endpoint_tenant_scan_cb X) records rc_end w =
    Done (rc, w') ->
  fs_names (fs_list w') = fs_names (fs_list w).
Proof.
  induction records as [|r records IH]; intros w rc w'.
  { cbn. unfold ret. by intros [= _ <-]. }
  cbn [tenant_scan_loop]. unfold bind at 1. destruct r as [tn|].
  - destruct (decide (tenant_get_name tn ∈ fs_names (fs_list w))) as [Ht|Ht].
    + destruct (lookup_present _ _ Ht) as (i & n & Hl & _).
      rewrite (scan_cb_matched _ _ _ Hl). cbn [Z.eqb].
      intros ->%IH. apply fs_names_alter, set_tenant_name.
    + by rewrite (scan_cb_orphan _ _ Ht).
  - cbn. unfold ret. by intros [= _ <-].
Qed.

Lemma endpoint_create_names w name opts rc w' :
  efs_endpoint_create X name opts w = Done (rc, w') ->
  fs_names (fs_list w') = fs_names (fs_list w).
Proof.
  unfold efs_endpoint_create. plumbing. cbn.
  destruct (lookup_cases name (fs_list w)) as [(i & n & Hl & Hi & _)|[Hl _]];
    rewrite Hl; looked_up; [|by intros [= _ <-]].
  rewrite Hi. destruct (tenant (efs_fs n)); [by intros [= _ <-]|].
  destruct (tenant_create X name _ opts (ext w)) as [[rc1 tn] s]. cbn.
  destruct (rc1 =? 0); cbn; [|by intros [= _ <-]].
  rewrite Hi. intros [= _ <-]. apply fs_names_alter, set_tenant_name.
Qed.

Lemma endpoint_delete_names w name rc w' :
  efs_endpoint_delete X name w = Done (rc, w') ->
  fs_names (fs_list w') = fs_names (fs_list w).
Proof.
  unfold efs_endpoint_delete. plumbing. cbn.
  destruct (lookup_cases name (fs_list w)) as [(i & n & Hl & Hi & _)|[Hl _]];
    rewrite Hl; looked_up; [|by intros [= _ <-]].
  rewrite Hi. destruct (tenant (efs_fs n)) as [t|]; [|by intros [= _ <-]].
  destruct (tenant_delete X t (ext w)) as [rc1 s]. cbn.
  destruct (rc1 =? 0); cbn; [|by intros [= _ <-]].
  rewrite Hi. intros [= _ <-]. apply fs_names_alter, set_tenant_name.
Qed.

Lemma delete_names w name rc w' :
  efs_fs_delete X name w = Done (rc, w') ->
  fs_names (fs_list w') = fs_names (fs_list w) \/
  exists i, fs_names (fs_list w') = delete i (fs_names (fs_list w)).
Proof.
  destruct (lookup_cases name (fs_list w)) as [(i & n & Hl & Hi & _)|[_ Hnot]].
  - destruct (tenant (efs_fs n)) as [t|] eqn:Ht.
    + assert (Hf : found name (fs_list w) = Some n)
        by (unfold found; by rewrite Hl).
      rewrite (delete_exported _ _ _ _ Hf Ht).
      intros [= _ <-]. by left.
    + destruct (delete_unbound _ _ _ _ Hl Hi Ht) as (rc1 & s1 & _ & Hcases).
      destruct Hcases as [[_ ->]|[_ (rc2 & s2 & _ & Hcases)]];
        [intros [= _ <-]; by left|].
      destruct Hcases as [[_ ->]|[_ (rc3 & s3 & _ & ->)]];
        [intros [= _ <-]; by left|].
      intros [= _ <-]. right. exists i. apply list_fmap_delete.
  - rewrite (delete_absent _ _ Hnot). intros [= _ <-]. by left.
Qed.

Lemma create_names w name rc w' :
  ns_create_keeps_name X ->
  efs_fs_create X name w = Done (rc, w') ->
  fs_names (fs_list w') = fs_names (fs_list w) \/
  ((name ∉ fs_names (fs_list w)) /\
   fs_names (fs_list w') = name :: fs_names (fs_list w)).
Proof.
  intros Hstore Hc. destruct (decide (rc = 0)) as [->|Hrc].
  - right. destruct (create_done _ _ _ Hc)
      as (Hnot & node_p & h1 & n & sz & s1 & ns_p & h2 & kvt & s2 & s3 &
          _ & Hn & _ & _ & _ & Hl & _).
    split; [done|]. rewrite Hl. cbn. unfold efs_fs_get_name at 1. cbn.
    by rewrite (Hstore _ _ _ _ _ Hn).
  - left. revert Hc. unfold efs_fs_create. plumbing. cbn.
    destruct (lookup_cases name (fs_list w)) as [(i & m & Hl & _)|[Hl Hnot]];
      rewrite Hl; looked_up; [by intros [= _ <-]|].
    destruct (malloc (mem w)) as [[node_p|] h1]; cbn; [|by intros [= _ <-]].
    destruct (ns_create X name (ext w)) as [[[rc1 n] ns_size] s1]. cbn.
    destruct (rc1 =? 0); cbn; [|by intros [= _ <-]].
    destruct (malloc h1) as [[ns_p|] h2]; cbn; [|done].
    destruct (kvtree_create X n (root_bufstat X) s1) as [[rc2 kvt] s2]. cbn.
    destruct (rc2 =? 0); cbn; [|by intros [= _ <-]].
    destruct (efs_tree_create_root X _ s2) as [rc3 s3]. cbn.
    destruct (rc3 =? 0) eqn:E; cbn; [|by intros [= _ <-]].
    apply Z.eqb_eq in E as ->. by intros [= <- _].
Qed.

(** Every entry point keeps the registered names distinct. *)
Lemma run_op_unique o w rc w' :
  ns_create_keeps_name X ->
  unique_names X w -> admissible X o w -> run_op X o w = Done (rc, w') ->
  unique_names X w'.
Proof.
  unfold unique_names. intros Hstore Hnd Hadm.
  destruct o as [| |name|name|name opts|name| |]; cbn [run_op].
  - unfold efs_fs_init, bind at 1, extcall.
    cbn in Hadm. unfold enumerated_names in Hadm.
    destruct (ns_scan X (ext w)) as [[records rc0] s] eqn:Hscan.
    cbn in Hadm. set (w0 := mk_world _ _ _ _).
    destruct (ns_scan_loop_unique records w0 Hadm) as (w1 & Hrun & Hnd1).
    unfold bind. rewrite Hrun. unfold ret. by intros [= _ <-].
  - unfold efs_endpoint_init, bind at 1, extcall.
    destruct (tenant_scan X (ext w)) as [[records rc_end] s].
    intros Hrun%scan_loop_names. by rewrite Hrun.
  - intros [->|[Hnot ->]]%create_names; [done| |done].
    apply NoDup_cons. done.
  - intros [->|[i ->]]%delete_names; [done|].
    eapply sublist_NoDup; [done | apply sublist_delete].
  - intros ->%endpoint_create_names. done.
  - intros ->%endpoint_delete_names. done.
  - unfold efs_endpoint_fini. plumbing. cbn. intros [= _ <-]. cbn.
    unfold fs_names in *. rewrite <- list_fmap_compose.
    erewrite list_fmap_ext; [exact Hnd|]. by intros ? [].
  - unfold efs_fs_fini, efs_endpoint_fini. plumbing. cbn.
    match goal with
    | |- context [fini_loop X ?l ?w0] =>
        destruct (fini_loop_empties l w0 eq_refl) as (w1 & -> & Hl)
    end.
    intros [= _ <-]. rewrite Hl. apply NoDup_nil_2.
Qed.

(** C9, as the code has it: in every state reached from an empty
    [fs_list] by the entry points of fs.c, no two nodes bear the same
    name, provided the namespace store names the namespaces it creates as
    asked and [efs_fs_init] runs only where the names it enumerates are
    pairwise distinct and not yet registered; and a create of a registered
    name changes nothing. *)
Theorem registry_names_unique w :
  ns_create_keeps_name X ->
  reachable X w ->
  unique_names X w /\
  forall name, name ∈ fs_names (fs_list w) ->
               efs_fs_create X name w = Done (- EEXIST, w).
Proof.
  intros Hstore Hreach. split.
  - induction Hreach as [w Hl|w o rc w' _ IH Hadm Hrun].
    + unfold unique_names. rewrite Hl. apply NoDup_nil_2.
    + by apply (run_op_unique o w rc w').
  - intros name. apply create_registered.
Qed.

End Properties.

(** ** The operations on concrete inputs *)

(** The sample namespace store names its namespaces as asked. *)
Lemma sample_keeps_name f b : ns_create_keeps_name (sample f b).
Proof.
  intros name s n ns_size s'. cbn.
  destruct (rc_ns_create f =? 0) eqn:E.
  - by intros [= <- _ _].
  - intros [= H]. rewrite H in E. done.
Qed.

(** A second create of "tank". *)
Lemma create_existing_is_rejected_witness :
  "tank" ∈ fs_names (fs_list (sample_tank no_fault true None [] [])) /\
  efs_fs_create (sample no_fault true) "tank"
    (sample_tank no_fault true None [] []) =
  Done (- EEXIST, sample_tank no_fault true None [] []).
Proof.
  assert (H : "tank" ∈ fs_names (fs_list (sample_tank no_fault true None [] [])))
    by (apply elem_of_cons; left; reflexivity).
  split; [exact H|].
  exact (proj1 (create_existing_is_rejected (sample no_fault true) _ _ H)).
Defined.

(** Delete of "tank" while it is exported. *)
Lemma delete_exported_is_rejected_witness :
  found "tank"
    (fs_list (sample_tank no_fault true (Some tank_tenant)
                          [Some tank_tenant] [])) =
    Some (tank_node (Some tank_tenant)) /\
  efs_fs_delete (sample no_fault true) "tank"
    (sample_tank no_fault true (Some tank_tenant) [Some tank_tenant] []) =
  Done (- EINVAL,
        sample_tank no_fault true (Some tank_tenant) [Some tank_tenant] []).
Proof.
  split; [reflexivity|].
  destruct (delete_exported_is_rejected (sample no_fault true)
              (sample_tank no_fault true (Some tank_tenant)
                           [Some tank_tenant] [])
              "tank" (tank_node (Some tank_tenant)) tank_tenant
              eq_refl eq_refl) as (w' & Hd & -> & _).
  exact Hd.
Defined.

(** Unexport of "tank" over a tenant store that fails to delete. *)
Lemma endpoint_delete_store_failure_witness :
  let w := sample_tank tenant_delete_fails true (Some tank_tenant)
                       [Some tank_tenant] [] in
  tenant_delete (sample tenant_delete_fails true) tank_tenant (ext w) =
    (- EIO, ext w) /\
  exists w',
    efs_endpoint_delete (sample tenant_delete_fails true) "tank" w =
      Done (- EIO, w') /\
    fs_list w' = fs_list w /\
    endpoint_info "tank" (fs_list w') = Some "ro".
Proof.
  intros w. split; [reflexivity|].
  assert (Hrc : - EIO <> 0) by done.
  destruct (endpoint_delete_store_failure (sample tenant_delete_fails true)
              w "tank" (tank_node (Some tank_tenant)) tank_tenant
              (- EIO) (ext w) eq_refl eq_refl eq_refl Hrc)
    as (w' & Hd & Hl & _ & Hinfo & _).
  exists w'. split; [exact Hd|]. split; [exact Hl | exact Hinfo].
Defined.

(** Export, then unexport, of "tank". *)
Lemma endpoint_create_delete_restores_witness :
  let X := sample no_fault true in
  let w := sample_tank no_fault true None [] [] in
  let w1 := state_after (efs_endpoint_create X "tank" "ro") w in
  let w2 := state_after (efs_endpoint_delete X "tank") w1 in
  efs_endpoint_create X "tank" "ro" w = Done (0, w1) /\
  efs_endpoint_delete X "tank" w1 = Done (0, w2) /\
  endpoint_info "tank" (fs_list w1) = Some "ro" /\
  fs_list w2 = fs_list w /\
  endpoint_info "tank" (fs_list w2) = None /\
  efs_endpoint_delete X "tank" w2 = Done (- ENOENT, w2).
Proof.
  intros X w w1 w2.
  assert (Hc : efs_endpoint_create X "tank" "ro" w = Done (0, w1))
    by reflexivity.
  assert (Hd : efs_endpoint_delete X "tank" w1 = Done (0, w2))
    by reflexivity.
  destruct (endpoint_create_delete_restores X w "tank" "ro"
              (tank_node None) eq_refl eq_refl)
    as (Hrestore & _).
  destruct (Hrestore w1 w2 Hc Hd) as (Hl & Hinfo & Hagain).
  split; [exact Hc|]. split; [exact Hd|]. split; [reflexivity|].
  split; [exact Hl|]. split; [exact Hinfo | exact Hagain].
Defined.

(** Create of "tank" in a fresh process, then lookup. *)
Lemma create_then_lookup_witness :
  let X := sample no_fault true in
  let w := sample_boot no_fault true in
  let w' := state_after (efs_fs_create X "tank") w in
  efs_fs_create X "tank" w = Done (0, w') /\
  exists i fs_node,
    efs_fs_lookup "tank" (fs_list w') = (0, Some i) /\
    fs_list w' !! i = Some fs_node /\
    efs_fs_get_name (efs_fs fs_node) = "tank".
Proof.
  intros X w w'.
  assert (Hc : efs_fs_create X "tank" w = Done (0, w')) by reflexivity.
  split; [exact Hc|].
  assert (Hnot : "tank" ∉ fs_names (fs_list w)) by apply not_elem_of_nil.
  exact (proj1 (create_then_lookup X w "tank" (sample_keeps_name _ _) Hnot)
               w' Hc).
Defined.

(** Create of "tank" over a tree backend whose [kvtree_create] fails. *)
Lemma create_failure_after_ns_create_witness :
  let X := sample kvtree_create_fails true in
  let w := sample_boot kvtree_create_fails true in
  let w' := state_after (efs_fs_create X "tank") w in
  efs_fs_create X "tank" w = Done (- EIO, w') /\
  fs_list w' = fs_list w /\
  (1%nat ∉ live (mem w')).
Proof.
  intros X w w'.
  assert (Hc : efs_fs_create X "tank" w = Done (- EIO, w')) by reflexivity.
  split; [exact Hc|].
  destruct (create_failure_after_ns_create X w "tank" (- EIO) w'
              1%nat (malloc empty_heap).2
              (sample_ns 1 "tank") 1%nat
              (mk_disk [sample_ns 1 "tank"] [] [] 2))
    as (Hl & Hfree & _).
  - apply not_elem_of_nil.
  - reflexivity.
  - reflexivity.
  - exact Hc.
  - done.
  - split; assumption.
Defined.

(** Delete of "tank" while its tree holds the entry "etc". *)
Lemma delete_never_stops_at_emptiness_check_witness :
  let X := sample no_fault true in
  let w := sample_tank no_fault true None [] [(1, "etc")] in
  tree_has_children X (sample_ns 1 "tank") (ext w) = true /\
  efs_fs_is_empty (tank_fs None) = 0 /\
  exists rc w' evs,
    efs_fs_delete X "tank" w = Done (rc, w') /\
    log w' = log w ++ EvTreeDeleteRoot (tank_fs None) :: evs.
Proof.
  intros X w. split; [reflexivity|].
  destruct (delete_never_stops_at_emptiness_check X w "tank" (tank_node None)
              eq_refl eq_refl) as (He & rc & w' & evs & Hd & Hlog & _).
  split; [exact He|]. exists rc, w', evs. split; assumption.
Defined.

(** Endpoint loading with a record for the registered "tank", and with a
    record for a filesystem that is not registered, with and without
    [dassert]. *)
Lemma endpoint_init_attaches_or_halts_witness :
  let X := sample no_fault true in
  let w := sample_tank no_fault true None [Some tank_tenant] [] in
  (exists w',
     efs_endpoint_init X w = Done (0, w') /\
     exists fs_node,
       found "tank" (fs_list w') = Some fs_node /\
       tenant (efs_fs fs_node) = Some tank_tenant) /\
  efs_endpoint_init X (sample_orphan true) = Halted AssertFailed /\
  efs_endpoint_init (sample no_fault false) (sample_orphan false) =
    Halted NullDeref.
Proof.
  intros X w. split; [|split].
  - destruct (endpoint_init_attaches_or_halts X w [Some tank_tenant] 0 (ext w)
                eq_refl) as [Hattach _].
    destruct (Hattach [tank_tenant] eq_refl) as (w' & Hrun & _ & Hall).
    { intros tn ->%list_elem_of_singleton. apply elem_of_cons. left.
      reflexivity. }
    exists w'. split; [exact Hrun|].
    destruct (Hall tank_tenant) as (fs_node & Hf & _ & Hnd).
    { apply elem_of_cons. by left. }
    exists fs_node. split; [exact Hf|]. apply Hnd.
    apply NoDup_singleton.
  - destruct (endpoint_init_attaches_or_halts X (sample_orphan true)
                [Some tank_tenant] 0 (ext (sample_orphan true)) eq_refl)
      as [_ Horphan].
    specialize (Horphan tank_tenant).
    destruct (efs_endpoint_init X (sample_orphan true)) as [[rc w']|h].
    + destruct Horphan as [_ Hnull];
        [apply elem_of_cons; by left | apply not_elem_of_nil |].
      apply elem_of_cons in Hnull as [?|Hnull]; [done|].
      by apply elem_of_nil in Hnull.
    + rewrite Horphan;
        [reflexivity | apply elem_of_cons; by left | apply not_elem_of_nil].
  - destruct (endpoint_init_attaches_or_halts (sample no_fault false)
                (sample_orphan false) [Some tank_tenant] 0
                (ext (sample_orphan false)) eq_refl)
      as [_ Horphan].
    specialize (Horphan tank_tenant).
    destruct (efs_endpoint_init (sample no_fault false) (sample_orphan false))
      as [[rc w']|h].
    + destruct Horphan as [_ Hnull];
        [apply elem_of_cons; by left | apply not_elem_of_nil |].
      apply elem_of_cons in Hnull as [?|Hnull]; [done|].
      by apply elem_of_nil in Hnull.
    + rewrite Horphan;
        [reflexivity | apply elem_of_cons; by left | apply not_elem_of_nil].
Defined.

(** The state after the create of "tank" in a fresh process. *)
Lemma registry_names_unique_witness :
  let X := sample no_fault true in
  let w := state_after (efs_fs_create X "tank") (sample_boot no_fault true) in
  reachable X w /\ fs_names (fs_list w) = ["tank"] /\ unique_names X w.
Proof.
  intros X w.
  assert (Hr : reachable X w).
  { apply (reach_step X (sample_boot no_fault true) (OpCreate "tank") 0 w).
    - apply reach_start. reflexivity.
    - exact I.
    - reflexivity. }
  split; [exact Hr|]. split; [reflexivity|].
  exact (proj1 (registry_names_unique X w (sample_keeps_name _ _) Hr)).
Defined.

(** C1: on the registered filesystem "tank" without binding, with a
    namespace store whose [ns_delete] fails, [efs_fs_delete] deletes the
    tree root and the tree, unlinks the node and only then calls
    [ns_delete]; it returns the error of [ns_delete], and the node is gone
    from [fs_list] although the namespace is still in the store. *)
Theorem delete_unlinks_before_ns_delete :
  let X := sample ns_delete_fails true in
  let w := sample_tank ns_delete_fails true None [] [] in
  let w' := state_after (efs_fs_delete X "tank") w in
  found "tank" (fs_list w) = Some (tank_node None) /\
  efs_fs_delete X "tank" w = Done (- EIO, w') /\
  fs_list w' = [] /\
  efs_fs_lookup "tank" (fs_list w') = (- ENOENT, None) /\
  namespaces (ext w') = [sample_ns 1 "tank"] /\
  log w' = [EvTreeDeleteRoot (tank_fs None);
            EvKvtreeDelete (Some (KvTree 1));
            EvListRemove "tank";
            EvNsDelete (sample_ns 1 "tank")].
Proof.
  intros X w w'. repeat split.
Qed.

(** Counterexample to C2 as worded: [kvtree_create] fails after
    [ns_create] has succeeded; the block of the namespace copy stays
    allocated, no call deletes the namespace and the store still holds
    it. *)
Lemma create_failure_leaves_namespace :
  let X := sample kvtree_create_fails true in
  let w := sample_boot kvtree_create_fails true in
  let w' := state_after (efs_fs_create X "tank") w in
  ~ create_failure_rolls_back X w "tank" /\
  efs_fs_create X "tank" w = Done (- EIO, w') /\
  live (mem w) = [] /\
  live (mem w') = [2%nat] /\
  (forall n, EvNsDelete n ∉ log w') /\
  namespaces (ext w') = [sample_ns 1 "tank"].
Proof.
  intros X w w'.
  assert (Hc : efs_fs_create X "tank" w = Done (- EIO, w')) by reflexivity.
  split; [|split; [exact Hc|]].
  - intros Hclaim.
    destruct (Hclaim 1%nat (malloc empty_heap).2
                (sample_ns 1 "tank") 1%nat
                (mk_disk [sample_ns 1 "tank"] [] [] 2) (- EIO) w')
      as (_ & Hlive & _); try reflexivity; try done.
    apply not_elem_of_nil.
  - split; [reflexivity|]. split; [reflexivity|]. split; [|reflexivity].
    intros n Hin. cbn in Hin.
    apply elem_of_cons in Hin as [?|Hin]; [done|].
    apply elem_of_cons in Hin as [?|Hin]; [done|].
    by apply elem_of_nil in Hin.
Qed.

(** Counterexample to C6 as worded: the tree of "tank" has a child, the
    emptiness check returns [0] and the delete goes through. *)
Lemma delete_of_non_empty_goes_through :
  let X := sample no_fault true in
  let w := sample_tank no_fault true None [] [(1, "etc")] in
  ~ delete_checks_emptiness X w "tank" /\
  tree_has_children X (ns (tank_fs None)) (ext w) = true /\
  efs_fs_is_empty (tank_fs None) = 0 /\
  efs_fs_delete X "tank" w =
    Done (0, state_after (efs_fs_delete X "tank") w) /\
  fs_list (state_after (efs_fs_delete X "tank") w) = [].
Proof.
  intros X w. split.
  - intros Hclaim.
    destruct (Hclaim (tank_node None) eq_refl eq_refl) as [[_ Hsees] _].
    apply Hsees; reflexivity.
  - repeat split.
Qed.

(** Counterexample to C9 as worded: the namespace store enumerates two
    namespaces named "tank"; [efs_fs_init] links a node for each. *)
Lemma fs_init_links_twins :
  let X := sample no_fault true in
  let w' := state_after (efs_fs_init X) sample_twins in
  ~ every_op_keeps_names_unique X /\
  unique_names X sample_twins /\
  efs_fs_init X sample_twins = Done (0, w') /\
  fs_names (fs_list w') = ["tank"; "tank"].
Proof.
  intros X w'.
  assert (Hu : unique_names X sample_twins) by apply NoDup_nil_2.
  assert (Hrun : run_op X OpFsInit sample_twins = Done (0, w'))
    by reflexivity.
  split; [|split; [exact Hu|split; [exact Hrun|reflexivity]]].
  intros Hclaim. specialize (Hclaim OpFsInit sample_twins 0 w' Hu Hrun).
  apply NoDup_cons in Hclaim as [Hnot _]. apply Hnot.
  apply elem_of_cons. by left.
Qed.

(** ** Further properties of fs.c *)

Section MoreProperties.

Variable X : Externals.
Variable T : TreeExternals X.

Implicit Types (w : world X) (name : str256_t) (l : list struct_efs_fs_node).

Ltac plumb :=
  cbv beta iota delta
    [bind ret crash emit get_list put_list do_malloc do_free extcall
     deref assign dassert uninitialised treecall].

Ltac after_lookup :=
  cbn; try change (- ENOENT =? 0) with false; cbn.

(** *** Lookup *)

(** [efs_fs_lookup] returns [0] with the position of the first node that
    bears the name, and [-ENOENT] with NULL exactly when no node bears
    it. *)
Theorem lookup_finds_first_match name l :
  (forall i,
     efs_fs_lookup name l = (0, Some i) <->
     exists fs_node,
       l !! i = Some fs_node /\
       efs_fs_get_name (efs_fs fs_node) = name /\
       forall j m, (j < i)%nat -> l !! j = Some m ->
                   efs_fs_get_name (efs_fs m) <> name) /\
  (efs_fs_lookup name l = (- ENOENT, None) <-> name ∉ fs_names l).
Proof.
  split.
  - induction l as [|n l IH]; intros i; cbn.
    { split; [done|]. by intros (m & ? & _). }
    unfold efs_fs_get_name in *.
    destruct (decide (name = ns_get_name (ns (efs_fs n)))) as [Heq|Hne].
    + rewrite Heq, str256_cmp_refl. split.
      * intros [= <-]. exists n. split; [done|]. split; [done|]. lia.
      * intros (m & Hi & Hm & Hfirst). destruct i as [|i]; [done|].
        exfalso. apply (Hfirst 0%nat n); [lia|done|done].
    + rewrite str256_cmp_neq by done.
      destruct (efs_fs_lookup name l) as [rc fs] eqn:Hl. split.
      * intros [= -> Hfs]. destruct fs as [i'|]; [|done].
        injection Hfs as <-.
        destruct (proj1 (IH i') eq_refl) as (m & Hi & Hm & Hfirst).
        exists m. split; [done|]. split; [done|].
        intros [|j] m' Hj Hm'; cbn in Hm'.
        -- injection Hm' as <-. congruence.
        -- apply (Hfirst j m'); [lia|done].
      * intros (m & Hi & Hm & Hfirst). destruct i as [|i].
        { cbn in Hi. injection Hi as <-. congruence. }
        cbn in Hi.
        assert (Hrec : (rc, fs) = (0, Some i)).
        { apply IH. exists m. split; [done|]. split; [done|].
          intros j m' Hj Hm'. apply (Hfirst (S j) m'); [lia|done]. }
        by injection Hrec as -> ->.
  - split.
    + intros Hl Hin. destruct (lookup_present _ _ Hin) as (i & n & Hl' & _).
      rewrite Hl in Hl'. done.
    + apply lookup_absent.
Qed.

(** *** Endpoint creation *)

(** [efs_endpoint_create] on a name that is not registered returns
    [-ENOENT]; nothing changes and the tenant store is not called. *)
Theorem endpoint_create_unregistered w name opts :
  name ∉ fs_names (fs_list w) ->
  efs_endpoint_create X name opts w = Done (- ENOENT, w).
Proof.
  intros Hnot. unfold efs_endpoint_create. plumb. cbn.
  rewrite (lookup_absent _ _ Hnot). done.
Qed.

Lemma endpoint_create_exported w name opts fs_node t :
  found name (fs_list w) = Some fs_node ->
  tenant (efs_fs fs_node) = Some t ->
  efs_endpoint_create X name opts w = Done (- EEXIST, w).
Proof.
  intros (i & Hl & Hi)%found_lookup Ht.
  unfold efs_endpoint_create. plumb. cbn.
  rewrite Hl. cbn. rewrite Hi, Ht. done.
Qed.

(** [efs_endpoint_create] on a filesystem that already has a binding
    returns [-EEXIST]; nothing changes, the binding stays and the tenant
    store is not called. *)
Theorem endpoint_create_already_exported w name opts fs_node t :
  found name (fs_list w) = Some fs_node ->
  tenant (efs_fs fs_node) = Some t ->
  efs_endpoint_create X name opts w = Done (- EEXIST, w) /\
  endpoint_info name (fs_list w) = tenant_get_info t.
Proof.
  intros Hf Ht. split; [by apply (endpoint_create_exported _ _ _ fs_node t)|].
  unfold endpoint_info, efs_fs_endpoint_info. by rewrite Hf, Ht.
Qed.

(** When [tenant_create] fails, [efs_endpoint_create] returns its return
    code as it is and [fs_list] and the heap are as before: no binding is
    attached. *)
Theorem endpoint_create_store_failure w name opts fs_node rc tn s :
  found name (fs_list w) = Some fs_node ->
  tenant (efs_fs fs_node) = None ->
  tenant_create X name (efs_get_ns_id (efs_fs fs_node)) opts (ext w) =
    (rc, tn, s) ->
  rc <> 0 ->
  exists w',
    efs_endpoint_create X name opts w = Done (rc, w') /\
    fs_list w' = fs_list w /\ mem w' = mem w /\ ext w' = s /\
    endpoint_info name (fs_list w') = None.
Proof.
  intros Hf Ht Hc Hrc. destruct (found_lookup _ _ _ Hf) as (i & Hl & Hi).
  unfold efs_endpoint_create. plumb. cbn.
  rewrite Hl. cbn. rewrite Hi, Ht, Hc. cbn.
  apply Z.eqb_neq in Hrc. rewrite Hrc. cbn.
  eexists. split; [done|]. cbn. repeat split.
  unfold endpoint_info, efs_fs_endpoint_info. by rewrite Hf, Ht.
Qed.

(** When [tenant_create] succeeds, [efs_endpoint_create] returns [0] and
    stores the tenant it got in the node found under the name; the names
    and the nodes found under the other names are as before. *)
Theorem endpoint_create_attaches w name opts fs_node tn s :
  found name (fs_list w) = Some fs_node ->
  tenant (efs_fs fs_node) = None ->
  tenant_create X name (efs_get_ns_id (efs_fs fs_node)) opts (ext w) =
    (0, tn, s) ->
  exists w',
    efs_endpoint_create X name opts w = Done (0, w') /\
    found name (fs_list w') = Some (set_tenant tn fs_node) /\
    fs_names (fs_list w') = fs_names (fs_list w) /\
    (forall name', name' <> name ->
       found name' (fs_list w') = found name' (fs_list w)) /\
    mem w' = mem w.
Proof.
  intros Hf Ht Hc. destruct (found_lookup _ _ _ Hf) as (i & Hl & Hi).
  rewrite (endpoint_create_ok X _ _ _ _ _ _ _ Hl Hi Ht Hc).
  eexists. split; [done|]. cbn. split; [|split; [|split; [|done]]].
  - rewrite (found_after_set_tenant name name tn _ i Hl).
    rewrite decide_True by done. by rewrite Hf.
  - apply fs_names_alter, set_tenant_name.
  - intros name' Hne.
    rewrite (found_after_set_tenant name' name tn _ i Hl).
    by rewrite decide_False.
Qed.

(** *** Delete *)

(** [efs_fs_delete] on a name that is not registered returns [-ENOENT];
    nothing changes and no collaborator is called. *)
Theorem delete_unregistered w name :
  name ∉ fs_names (fs_list w) ->
  efs_fs_delete X name w = Done (- ENOENT, w).
Proof.
  intros H. unfold efs_fs_delete. plumb. cbn.
  rewrite (lookup_absent _ _ H). done.
Qed.

(** When [efs_tree_delete_root] fails, or [kvtree_delete] fails after it,
    [efs_fs_delete] returns that return code; [fs_list] is as before (the
    node is still linked and its [kvtree] is not cleared), and neither the
    unlink nor [ns_delete] has happened. *)
Theorem delete_tree_failure_keeps_node w name fs_node rc :
  found name (fs_list w) = Some fs_node ->
  tenant (efs_fs fs_node) = None ->
  (exists s, efs_tree_delete_root X (efs_fs fs_node) (ext w) = (rc, s) /\
             rc <> 0) \/
  (exists s1 s2,
     efs_tree_delete_root X (efs_fs fs_node) (ext w) = (0, s1) /\
     kvtree_delete X (kvtree (efs_fs fs_node)) s1 = (rc, s2) /\ rc <> 0) ->
  exists w',
    efs_fs_delete X name w = Done (rc, w') /\
    fs_list w' = fs_list w /\
    found name (fs_list w') = Some fs_node /\
    (forall e, e ∈ log w' -> e ∈ log w \/
               e = EvTreeDeleteRoot (efs_fs fs_node) \/
               e = EvKvtreeDelete (kvtree (efs_fs fs_node))).
Proof.
  intros Hf Ht Hfail. destruct (found_lookup _ _ _ Hf) as (i & Hl & Hi).
  destruct (delete_unbound X _ _ _ _ Hl Hi Ht) as (rc1 & s1 & H1 & Hcases).
  destruct Hfail as [(s & Hs & Hrc)|(t1 & t2 & Hs1 & Hs2 & Hrc)].
  - rewrite Hs in H1. injection H1 as <- <-.
    destruct Hcases as [[_ Hr]|[? _]]; [|done].
    eexists. split; [exact Hr|]. cbn. split; [done|]. split; [done|].
    intros e [He|He]%elem_of_app; [by left|].
    apply list_elem_of_singleton in He. right. by left.
  - rewrite Hs1 in H1. injection H1 as <- <-.
    destruct Hcases as [[? _]|[_ (rc2 & s2 & H2 & Hcases)]]; [done|].
    rewrite Hs2 in H2. injection H2 as <- <-.
    destruct Hcases as [[_ Hr]|[? _]]; [|done].
    eexists. split; [exact Hr|]. cbn. split; [done|]. split; [done|].
    intros e [He|He]%elem_of_app; [by left|].
    apply elem_of_cons in He as [->|He]; [right; by left|].
    apply list_elem_of_singleton in He. right. by right.
Qed.

Lemma found_delete_other name name' l i :
  efs_fs_lookup name l = (0, Some i) ->
  name' <> name ->
  found name' (delete i l) = found name' l.
Proof.
  revert i. induction l as [|n l IH]; intros i Hl Hne; [done|].
  cbn in Hl. unfold efs_fs_get_name in *.
  destruct (decide (name = ns_get_name (ns (efs_fs n)))) as [Heq|Hn].
  - rewrite Heq, str256_cmp_refl in Hl. injection Hl as <-. cbn.
    unfold found at 2. cbn. rewrite str256_cmp_neq by congruence.
    unfold found. destruct (efs_fs_lookup name' l) as [rc [j|]]; done.
  - rewrite str256_cmp_neq in Hl by done.
    destruct (efs_fs_lookup name l) as [rc fs] eqn:Hl'.
    injection Hl as -> Hfs. destruct fs as [i'|]; [|done].
    injection Hfs as <-. cbn.
    specialize (IH i' eq_refl Hne). unfold found in *. cbn.
    destruct (str256_cmp name' (ns_get_name (ns (efs_fs n))) =? 0); [done|].
    destruct (efs_fs_lookup name' (delete i' l)) as [rc1 [j1|]];
      destruct (efs_fs_lookup name' l) as [rc2 [j2|]]; cbn in *; done.
Qed.

Lemma names_delete_found name l i :
  NoDup (fs_names l) ->
  efs_fs_lookup name l = (0, Some i) ->
  name ∉ fs_names (delete i l).
Proof.
  revert i. induction l as [|n l IH]; intros i Hnd Hl; [done|].
  cbn in Hnd. apply NoDup_cons in Hnd as [Hnot Hnd].
  cbn in Hl. unfold efs_fs_get_name in *.
  destruct (decide (name = ns_get_name (ns (efs_fs n)))) as [Heq|Hn].
  - rewrite Heq, str256_cmp_refl in Hl. injection Hl as <-. cbn.
    by rewrite Heq.
  - rewrite str256_cmp_neq in Hl by done.
    destruct (efs_fs_lookup name l) as [rc fs] eqn:Hl'.
    injection Hl as -> Hfs. destruct fs as [i'|]; [|done].
    injection Hfs as <-. cbn. apply not_elem_of_cons. split; [done|].
    by apply IH.
Qed.

(** With distinct names in [fs_list], a delete that returns [0] is
    followed by a lookup of the name that returns [-ENOENT], while every
    other name is found as before. *)
Theorem delete_then_lookup w name w' :
  unique_names X w ->
  efs_fs_delete X name w = Done (0, w') ->
  efs_fs_lookup name (fs_list w') = (- ENOENT, None) /\
  (forall name', name' <> name ->
     found name' (fs_list w') = found name' (fs_list w)) /\
  unique_names X w'.
Proof.
  unfold unique_names. intros Hnd Hd.
  destruct (lookup_cases name (fs_list w)) as [(i & n & Hl & Hi & _)|[_ Hnot]];
    [|by rewrite (delete_absent X _ _ Hnot) in Hd].
  destruct (tenant (efs_fs n)) as [t|] eqn:Ht.
  { assert (Hf : found name (fs_list w) = Some n)
      by (unfold found; by rewrite Hl).
    by rewrite (delete_exported X _ _ _ _ Hf Ht) in Hd. }
  destruct (delete_unbound X _ _ _ _ Hl Hi Ht) as (rc1 & s1 & _ & Hcases).
  destruct Hcases as [[Hrc Hr]|[_ (rc2 & s2 & _ & Hcases)]].
  { rewrite Hr in Hd. injection Hd as -> _. done. }
  destruct Hcases as [[Hrc Hr]|[_ (rc3 & s3 & _ & Hr)]].
  { rewrite Hr in Hd. injection Hd as -> _. done. }
  rewrite Hr in Hd. injection Hd as _ <-. cbn. split; [|split].
  - apply lookup_absent. by apply names_delete_found.
  - intros name' Hne. by apply (found_delete_other name).
  - unfold fs_names. rewrite list_fmap_delete.
    eapply sublist_NoDup; [done | apply sublist_delete].
Qed.


(** *** Shutdown *)

Lemma found_fmap (f : struct_efs_fs_node -> struct_efs_fs_node) name l :
  (forall n, efs_fs_get_name (efs_fs (f n)) = efs_fs_get_name (efs_fs n)) ->
  found name (f <$> l) = f <$> found name l.
Proof.
  intros Hf.
  assert (Hnames : fs_names (f <$> l) = fs_names l).
  { unfold fs_names. rewrite <- list_fmap_compose. apply list_fmap_ext.
    intros ? n _. apply Hf. }
  unfold found. rewrite (lookup_names name _ _ Hnames).
  destruct (efs_fs_lookup name l) as [rc [i|]]; [|done].
  apply list_lookup_fmap.
Qed.

Lemma endpoint_fini_run w :
  exists w',
    efs_endpoint_fini X w = Done (0, w') /\
    fs_names (fs_list w') = fs_names (fs_list w) /\
    (forall name, endpoint_info name (fs_list w') = None) /\
    (forall name fs_node,
       found name (fs_list w) = Some fs_node ->
       found name (fs_list w') = Some (set_tenant None fs_node)) /\
    mem w' = mem w /\ ext w' = ext w /\ log w' = log w.
Proof.
  eexists. split; [reflexivity|]. cbn.
  assert (Hfound : forall name,
            found name (set_tenant None <$> fs_list w) =
            set_tenant None <$> found name (fs_list w))
    by (intros name; apply found_fmap, set_tenant_name).
  split; [|split; [|split; [|done]]].
  - unfold fs_names. rewrite <- list_fmap_compose. apply list_fmap_ext.
    intros ? n _. apply set_tenant_name.
  - intros name. unfold endpoint_info. rewrite Hfound.
    by destruct (found name (fs_list w)).
  - intros name fs_node Hf. by rewrite Hfound, Hf.
Qed.

(** [efs_endpoint_fini] returns [0] and leaves every node without
    binding: the endpoint info of every name is then absent.  The nodes
    stay registered under their names, and the stores are not touched, so
    the persisted bindings survive. *)
Theorem endpoint_fini_detaches_all w :
  exists w',
    efs_endpoint_fini X w = Done (0, w') /\
    fs_names (fs_list w') = fs_names (fs_list w) /\
    (forall name, endpoint_info name (fs_list w') = None) /\
    (forall name fs_node,
       found name (fs_list w) = Some fs_node ->
       found name (fs_list w') = Some (set_tenant None fs_node)) /\
    mem w' = mem w /\ ext w' = ext w /\ log w' = log w.
Proof. exact (endpoint_fini_run w). Qed.

(** Detaching is not deleting: after [efs_endpoint_fini], an
    [efs_endpoint_init] over the same tenant store gives every node the
    last record of its name again, and no binding to a node without
    record. *)
Theorem endpoint_fini_then_init w tns rc_end s :
  tenant_scan X (ext w) = (Some <$> tns, rc_end, s) ->
  (forall tn, tn ∈ tns -> tenant_get_name tn ∈ fs_names (fs_list w)) ->
  exists w1 w2,
    efs_endpoint_fini X w = Done (0, w1) /\
    efs_endpoint_init X w1 = Done (rc_end, w2) /\
    forall name fs_node,
      found name (fs_list w) = Some fs_node ->
      found name (fs_list w2) =
        Some (set_tenant (last_named name tns) fs_node).
Proof.
  intros Hscan Hall.
  destruct (endpoint_fini_run w)
    as (w1 & Hfini & Hnames & _ & Hfound & _ & Hext & _).
  exists w1. unfold efs_endpoint_init, bind at 1, extcall.
  rewrite Hext, Hscan.
  set (w0 := mk_world _ _ _ _).
  destruct (scan_loop_matched X rc_end tns w0) as (l' & Hrun & _ & Hf').
  { intros tn Hin. subst w0. cbn [fs_list]. rewrite Hnames. by apply Hall. }
  eexists. split; [exact Hfini|]. split; [exact Hrun|].
  intros name fs_node Hf. cbn. rewrite Hf'. cbn.
  rewrite (Hfound _ _ Hf). by destruct (last_named name tns).
Qed.

Lemma blocks_of_set_tenant t l :
  blocks_of (set_tenant t <$> l) = blocks_of l.
Proof.
  unfold blocks_of. induction l as [|n l IH]; [done|]. cbn. by rewrite IH.
Qed.

Lemma fini_loop_frees l : forall w,
  fs_list w = l ->
  exists w',
    fini_loop X l w = Done (tt, w') /\
    fs_list w' = [] /\ ext w' = ext w /\
    forall q, q ∈ live (mem w') <-> q ∈ live (mem w) /\ q ∉ blocks_of l.
Proof.
  induction l as [|n l IH]; intros w Hw.
  - exists w. split; [done|]. split; [done|]. split; [done|].
    intros q. split; [|by intros [? _]]. intros Hq. split; [done|].
    apply not_elem_of_nil.
  - cbn [fini_loop]. plumb. cbn.
    match goal with
    | |- context [fini_loop X l ?w0] =>
        destruct (IH w0 eq_refl) as (w' & -> & Hl & Hext & Hlive)
    end.
    exists w'. split; [done|]. split; [done|]. split; [done|].
    intros q. rewrite Hlive. cbn.
    rewrite !list_elem_of_filter, !not_elem_of_cons. tauto.
Qed.

(** [efs_fs_fini] returns [0] and empties [fs_list]; the node block and
    the namespace copy of every node are freed, and nothing else is.  The
    stores are not touched.  Any lookup then returns [-ENOENT]. *)
Theorem fs_fini_releases_registry w :
  exists w',
    efs_fs_fini X w = Done (0, w') /\
    fs_list w' = [] /\
    ext w' = ext w /\
    (forall q, q ∈ live (mem w') <->
               q ∈ live (mem w) /\ q ∉ blocks_of (fs_list w)) /\
    (forall name, efs_fs_lookup name (fs_list w') = (- ENOENT, None)).
Proof.
  unfold efs_fs_fini, efs_endpoint_fini. plumb. cbn.
  match goal with
  | |- context [fini_loop X ?l ?w0] =>
      destruct (fini_loop_frees l w0 eq_refl) as (w' & -> & Hl & Hext & Hlive)
  end.
  exists w'. split; [done|]. split; [done|]. split; [done|]. split.
  - intros q. rewrite Hlive, blocks_of_set_tenant. done.
  - intros name. by rewrite Hl.
Qed.

(** *** Startup *)

Lemma malloc_room h :
  (length (live h) < heap_limit h)%nat ->
  malloc h = (Some (brk h),
              {| live := brk h :: live h; brk := S (brk h);
                 heap_limit := heap_limit h; stale := stale h |}).
Proof. intros H. unfold malloc. by rewrite decide_True. Qed.

Lemma malloc_full h :
  (heap_limit h <= length (live h))%nat -> malloc h = (None, h).
Proof. intros H. unfold malloc. rewrite decide_False; [done|lia]. Qed.

Lemma ns_scan_loop_room records : forall w,
  (length (live (mem w)) + 2 * length records <= heap_limit (mem w))%nat ->
  exists w' new,
    ns_scan_loop X (fs_ns_scan_cb X) records w = Done (tt, w') /\
    fs_list w' = new ++ fs_list w /\
    (fun n => ns (efs_fs n)) <$> new = reverse (records.*1) /\
    Forall (fun n => kvtree (efs_fs n) = None) new /\
    ext w' = ext w.
Proof.
  induction records as [|[n ns_size] records IH]; intros w Hroom.
  - exists w, []. done.
  - cbn [ns_scan_loop]. cbn [length] in Hroom.
    unfold bind at 1, fs_ns_scan_cb. plumb.
    rewrite (malloc_room (mem w)) by lia. cbn.
    rewrite malloc_room by (cbn; lia). cbn.
    match goal with
    | |- context [ns_scan_loop X _ records ?w0] =>
        destruct (IH w0) as (w' & new & Hrun & Hl & Hns & Hk & Hext)
    end.
    { cbn. lia. }
    cbn in Hl. eexists w', (new ++ [_]). split; [exact Hrun|].
    split; [by rewrite Hl, <- app_assoc|].
    split; [|split; [|done]].
    + change (rev_append records.*1 [n]) with (reverse (n :: records.*1)).
      rewrite reverse_cons, fmap_app, Hns. done.
    + apply Forall_app. split; [done|]. by apply Forall_singleton.
Qed.

(** When the heap has room for two blocks per namespace, [efs_fs_init]
    returns the return code of [ns_scan] and links one node per
    enumerated namespace in front of the nodes already there, the last
    enumerated first; each new node has a NULL [kvtree]. *)
Theorem fs_init_loads_in_reverse w records rc s :
  ns_scan X (ext w) = (records, rc, s) ->
  (length (live (mem w)) + 2 * length records <= heap_limit (mem w))%nat ->
  exists w' new,
    efs_fs_init X w = Done (rc, w') /\
    fs_list w' = new ++ fs_list w /\
    (fun n => ns (efs_fs n)) <$> new = reverse (records.*1) /\
    Forall (fun n => kvtree (efs_fs n) = None) new /\
    ext w' = s.
Proof.
  intros Hscan Hroom. unfold efs_fs_init, bind at 1, extcall.
  rewrite Hscan. set (w0 := mk_world _ _ _ _).
  destruct (ns_scan_loop_room records w0 Hroom)
    as (w' & new & Hrun & Hl & Hns & Hk & Hext).
  exists w', new. unfold bind. rewrite Hrun. done.
Qed.

Lemma ns_scan_loop_full records : forall w,
  (heap_limit (mem w) <= length (live (mem w)))%nat ->
  ns_scan_loop X (fs_ns_scan_cb X) records w = Done (tt, w).
Proof.
  induction records as [|[n ns_size] records IH]; intros w Hfull; [done|].
  cbn [ns_scan_loop]. unfold bind at 1, fs_ns_scan_cb. plumb.
  rewrite (malloc_full _ Hfull). cbn. rewrite world_eta. by apply IH.
Qed.

(** When no block can be allocated, [efs_fs_init] links nothing and
    still returns the return code of [ns_scan]: the failed allocations
    of the callback are not reported. *)
Theorem fs_init_hides_allocation_failure w records rc s :
  ns_scan X (ext w) = (records, rc, s) ->
  (heap_limit (mem w) <= length (live (mem w)))%nat ->
  exists w',
    efs_fs_init X w = Done (rc, w') /\
    fs_list w' = fs_list w /\ mem w' = mem w /\ ext w' = s.
Proof.
  intros Hscan Hfull. unfold efs_fs_init, bind at 1, extcall.
  rewrite Hscan. unfold bind.
  rewrite ns_scan_loop_full by done. eexists. split; [reflexivity|]. done.
Qed.

(** [fs_ns_scan_cb] stores nothing in the [tenant] field of the node it
    links: the field holds what the fresh block held.  When that is not
    NULL, the filesystem counts as exported although no endpoint was ever
    created for it: [efs_endpoint_create] returns [-EEXIST] and
    [efs_fs_delete] returns [-EINVAL]. *)
Theorem scan_cb_leaves_tenant_unset w n ns_size node_p h1 ns_p h2 :
  malloc (mem w) = (Some node_p, h1) ->
  malloc h1 = (Some ns_p, h2) ->
  exists w' fs_node,
    fs_ns_scan_cb X n ns_size w = Done (tt, w') /\
    fs_list w' = fs_node :: fs_list w /\
    ns (efs_fs fs_node) = n /\
    tenant (efs_fs fs_node) = stale (mem w) node_p /\
    (forall t opts,
       stale (mem w) node_p = Some t ->
       efs_endpoint_create X (ns_get_name n) opts w' = Done (- EEXIST, w') /\
       efs_fs_delete X (ns_get_name n) w' = Done (- EINVAL, w')).
Proof.
  intros Hm1 Hm2.
  assert (Hstale : stale h2 = stale (mem w)).
  { unfold malloc in Hm1, Hm2.
    destruct (decide _) in Hm1; [|done]. injection Hm1 as _ <-.
    destruct (decide _) in Hm2; [|done]. by injection Hm2 as _ <-. }
  unfold fs_ns_scan_cb. plumb. rewrite Hm1. cbn. rewrite Hm2. cbn.
  eexists _, _. split; [reflexivity|]. cbn.
  split; [done|]. split; [done|]. split; [by rewrite Hstale|].
  intros t opts Ht. rewrite Hstale, Ht.
  set (node := mk_efs_fs_node _ _).
  set (w' := mk_world _ _ _ _).
  assert (Hf : found (ns_get_name n) (fs_list w') = Some node).
  { unfold found. cbn. by rewrite str256_cmp_refl. }
  split.
  - by apply (endpoint_create_exported w' _ opts node t).
  - by apply (delete_exported X w' _ node t).
Qed.


(** *** Create *)

(** When the node cannot be allocated, [efs_fs_create] returns [-ENOMEM];
    nothing changes and the namespace store is not called. *)
Theorem create_out_of_memory w name :
  name ∉ fs_names (fs_list w) ->
  (heap_limit (mem w) <= length (live (mem w)))%nat ->
  efs_fs_create X name w = Done (- ENOMEM, w).
Proof.
  intros Hnot Hfull. unfold efs_fs_create. plumb. cbn.
  rewrite (lookup_absent _ _ Hnot). after_lookup.
  rewrite (malloc_full _ Hfull). cbn. by rewrite world_eta.
Qed.

(** When [ns_create] fails, [efs_fs_create] returns its return code as it
    is, frees the node block and links nothing; [ns_create] is the only
    call made. *)
Theorem create_ns_create_failure w name node_p h1 rc n ns_size s1 :
  name ∉ fs_names (fs_list w) ->
  malloc (mem w) = (Some node_p, h1) ->
  ns_create X name (ext w) = (rc, n, ns_size, s1) ->
  rc <> 0 ->
  exists w',
    efs_fs_create X name w = Done (rc, w') /\
    fs_list w' = fs_list w /\
    (node_p ∉ live (mem w')) /\
    ext w' = s1 /\
    log w' = log w ++ [EvNsCreate name].
Proof.
  intros Hnot Hm Hn Hrc. unfold efs_fs_create. plumb. cbn.
  rewrite (lookup_absent _ _ Hnot). after_lookup.
  rewrite Hm. cbn. rewrite Hn. cbn.
  apply Z.eqb_neq in Hrc. rewrite Hrc. cbn.
  eexists. split; [done|]. cbn. split; [done|]. split; [|done].
  apply (not_elem_of_free node_p h1).
Qed.

(** The block for the copy of the namespace is not checked: when
    [ns_create] has succeeded with a namespace of positive size and that
    block cannot be allocated, [efs_fs_create] copies through NULL and the
    process stops. *)
Theorem create_stops_on_unchecked_malloc w name node_p h1 n ns_size s1 h2 :
  name ∉ fs_names (fs_list w) ->
  malloc (mem w) = (Some node_p, h1) ->
  ns_create X name (ext w) = (0, n, ns_size, s1) ->
  (0 < ns_size)%nat ->
  malloc h1 = (None, h2) ->
  efs_fs_create X name w = Halted NullDeref.
Proof.
  intros Hnot Hm1 Hn _ Hm2. unfold efs_fs_create. plumb. cbn.
  rewrite (lookup_absent _ _ Hnot). after_lookup.
  rewrite Hm1. cbn. rewrite Hn. cbn. rewrite Hm2. done.
Qed.

Lemma found_cons_other name' n l :
  efs_fs_get_name (efs_fs n) <> name' ->
  found name' (n :: l) = found name' l.
Proof.
  intros Hne. unfold found. cbn. unfold efs_fs_get_name in Hne.
  rewrite str256_cmp_neq by congruence.
  by destruct (efs_fs_lookup name' l) as [rc [i|]].
Qed.

(** When the namespace store names the namespace as asked, a create that
    returns [0] puts the new name in front of the names, with no binding
    (its endpoint info is absent), and every other name is found as
    before. *)
Theorem create_keeps_other_entries w name w' :
  ns_create_keeps_name X ->
  efs_fs_create X name w = Done (0, w') ->
  fs_names (fs_list w') = name :: fs_names (fs_list w) /\
  endpoint_info name (fs_list w') = None /\
  (forall name', name' <> name ->
     found name' (fs_list w') = found name' (fs_list w)).
Proof.
  intros Hstore Hc.
  destruct (create_done X _ _ _ Hc)
    as (_ & node_p & h1 & n & sz & s1 & ns_p & h2 & kvt & s2 & s3 &
        _ & Hn & _ & _ & _ & Hl & _).
  pose proof (Hstore _ _ _ _ _ Hn) as Hname. rewrite Hl.
  split; [|split].
  - cbn. unfold efs_fs_get_name at 1. cbn. by rewrite Hname.
  - unfold endpoint_info, found. cbn. rewrite Hname, str256_cmp_refl. done.
  - intros name' Hne. apply found_cons_other. cbn.
    unfold efs_fs_get_name. cbn. congruence.
Qed.

Lemma malloc_live h p h' : malloc h = (Some p, h') -> live h' = p :: live h.
Proof.
  unfold malloc. destruct (decide _); [|done]. by intros [= <- <-].
Qed.


(** *** The list scan *)

Lemma scan_loop_all_ok {A} (cb : efs_fs_list_entry -> A -> Z * A) l :
  (forall e a, (cb e a).1 = 0) ->
  forall args,
    scan_list_loop cb l args =
      (0, foldl (fun a n => (cb (list_entry_of n) a).2) args l).
Proof.
  intros Hok. induction l as [|n l IH]; intros args; [done|].
  cbn. specialize (Hok (list_entry_of n) args).
  destruct (cb (list_entry_of n) args) as [rc a]. cbn in *. subst rc.
  cbn. apply IH.
Qed.

Lemma foldl_collect l : forall acc,
  foldl (fun a n => (collect (list_entry_of n) a).2) acc l =
  acc ++ (list_entry_of <$> l).
Proof.
  induction l as [|n l IH]; intros acc; cbn; [by rewrite app_nil_r|].
  rewrite IH. by rewrite <- app_assoc.
Qed.

Lemma scan_collect w :
  efs_fs_scan_list collect [] w = Done ((0, list_entry_of <$> fs_list w), w).
Proof.
  unfold efs_fs_scan_list. plumb.
  rewrite scan_loop_all_ok by done. by rewrite foldl_collect.
Qed.

(** With a visitor that never fails, [efs_fs_scan_list] returns [0] after
    showing it every node once, from the head of [fs_list] on; a visitor
    that collects what it is shown ends with the name and the endpoint
    info of every node, in that order.  The state is not changed. *)
Theorem scan_list_visits_all {A} (cb : efs_fs_list_entry -> A -> Z * A)
    w args :
  (forall e a, (cb e a).1 = 0) ->
  efs_fs_scan_list cb args w =
    Done ((0, foldl (fun a n => (cb (list_entry_of n) a).2) args (fs_list w)),
          w) /\
  efs_fs_scan_list collect [] w =
    Done ((0, list_entry_of <$> fs_list w), w).
Proof.
  intros Hok. split; [|apply scan_collect].
  unfold efs_fs_scan_list. plumb. by rewrite scan_loop_all_ok.
Qed.

(** [efs_fs_scan_list] stops at the first node on which the visitor
    returns an error and returns that error: the nodes behind it are not
    shown, whatever they are. *)
Theorem scan_list_stops_at_first_error {A}
    (cb : efs_fs_list_entry -> A -> Z * A) w before fs_node behind
    args args1 rc args2 :
  fs_list w = before ++ fs_node :: behind ->
  scan_list_loop cb before args = (0, args1) ->
  cb (list_entry_of fs_node) args1 = (rc, args2) ->
  rc <> 0 ->
  efs_fs_scan_list cb args w = Done ((rc, args2), w).
Proof.
  intros Hl Hbefore Hcb Hrc. unfold efs_fs_scan_list. plumb. rewrite Hl.
  do 2 f_equal. clear Hl. revert args Hbefore.
  induction before as [|n before IH]; intros args Hbefore; cbn in *.
  - injection Hbefore as <-. rewrite Hcb.
    apply Z.eqb_neq in Hrc. by rewrite Hrc.
  - destruct (cb (list_entry_of n) args) as [rc0 a0].
    destruct (rc0 =? 0) eqn:E; cbn in *; [by apply IH|].
    injection Hbefore as -> _. done.
Qed.

(** When the namespace store names the namespace as asked, a collecting
    scan after a create that returned [0] shows the new filesystem first,
    with no endpoint info, and then what a scan showed before the
    create. *)
Theorem scan_list_after_create w name w' :
  ns_create_keeps_name X ->
  efs_fs_create X name w = Done (0, w') ->
  exists seen,
    efs_fs_scan_list collect [] w = Done ((0, seen), w) /\
    efs_fs_scan_list collect [] w' =
      Done ((0, {| fs_name := name; fs_endpoint_info := None |} :: seen), w').
Proof.
  intros Hstore Hc.
  destruct (create_done X _ _ _ Hc)
    as (_ & node_p & h1 & n & sz & s1 & ns_p & h2 & kvt & s2 & s3 &
        _ & Hn & _ & _ & _ & Hl & _).
  pose proof (Hstore _ _ _ _ _ Hn) as Hname.
  exists (list_entry_of <$> fs_list w).
  split; [apply scan_collect|].
  rewrite (scan_collect w'), Hl. cbn.
  unfold list_entry_of at 1, efs_fs_get_name. cbn. by rewrite Hname.
Qed.

(** *** Open and close *)

(** [efs_fs_open] on a name that is not registered returns [-ENOENT] and
    stores no handle; nothing changes, nothing is allocated. *)
Theorem open_unregistered w fs_name :
  str256_from_cstr T fs_name ∉ fs_names (fs_list w) ->
  efs_fs_open T fs_name w = Done ((- ENOENT, None), w).
Proof.
  intros Hnot. unfold efs_fs_open. plumb. cbn.
  rewrite (lookup_absent _ _ Hnot). done.
Qed.

(** [efs_fs_open] on a filesystem whose tree was never opened, when the
    block for the tree cannot be allocated, returns [-ENOMEM] and stores
    no handle; nothing changes and [kvtree_init] is not called. *)
Theorem open_out_of_memory w fs_name fs_node :
  found (str256_from_cstr T fs_name) (fs_list w) = Some fs_node ->
  kvtree (efs_fs fs_node) = None ->
  (heap_limit (mem w) <= length (live (mem w)))%nat ->
  efs_fs_open T fs_name w = Done ((- ENOMEM, None), w).
Proof.
  intros (i & Hl & Hi)%found_lookup Hk Hfull.
  unfold efs_fs_open. plumb. cbn. rewrite Hl. cbn. rewrite Hi, Hk. cbn.
  rewrite (malloc_full _ Hfull). cbn. by rewrite world_eta.
Qed.

(** How [efs_fs_open] goes on a registered filesystem once the block of
    the tree is there. *)
Lemma open_run w fs_name i fs_node contents h rc k s :
  efs_fs_lookup (str256_from_cstr T fs_name) (fs_list w) = (0, Some i) ->
  fs_list w !! i = Some fs_node ->
  (kvtree (efs_fs fs_node) = contents /\ is_Some contents /\ h = mem w) \/
  (kvtree (efs_fs fs_node) = None /\ contents = None /\
   exists p, malloc (mem w) = (Some p, h)) ->
  kvtree_init T (ns (efs_fs fs_node)) contents (ext w) = (rc, k, s) ->
  efs_fs_open T fs_name w =
    Done ((rc, Some i),
          mk_world (alter (set_kvtree (Some k)) i (fs_list w)) h s (log w)).
Proof.
  intros Hl Hi Hblock Hinit. unfold efs_fs_open. plumb. cbn.
  rewrite Hl. cbn. rewrite Hi.
  destruct Hblock as [(Hk & [k0 ->] & ->)|(Hk & -> & p & Hm)]; rewrite Hk; cbn.
  - rewrite Hinit. cbn. rewrite Hi. done.
  - rewrite Hm. cbn. rewrite Hinit. cbn. rewrite Hi. done.
Qed.

(** On a filesystem whose tree block is there already, [efs_fs_open]
    allocates nothing; it hands the block to [kvtree_init], returns what
    [kvtree_init] returns and stores the handle of the node, also when
    [kvtree_init] failed.  The names and the binding are as before. *)
Theorem open_reuses_tree w fs_name fs_node k0 rc k s :
  found (str256_from_cstr T fs_name) (fs_list w) = Some fs_node ->
  kvtree (efs_fs fs_node) = Some k0 ->
  kvtree_init T (ns (efs_fs fs_node)) (Some k0) (ext w) = (rc, k, s) ->
  exists i w',
    efs_fs_open T fs_name w = Done ((rc, Some i), w') /\
    fs_list w !! i = Some fs_node /\
    found (str256_from_cstr T fs_name) (fs_list w') =
      Some (set_kvtree (Some k) fs_node) /\
    fs_names (fs_list w') = fs_names (fs_list w) /\
    mem w' = mem w.
Proof.
  intros Hf Hk Hinit. destruct (found_lookup _ _ _ Hf) as (i & Hl & Hi).
  exists i. eexists. split.
  { apply (open_run w fs_name i fs_node (Some k0) (mem w) rc k s Hl Hi);
      [left; eauto | done]. }
  cbn. split; [done|].
  assert (Hnames : fs_names (alter (set_kvtree (Some k)) i (fs_list w)) =
                   fs_names (fs_list w))
    by apply fs_names_alter, set_kvtree_name.
  split; [|done].
  unfold found. rewrite (lookup_names _ _ _ Hnames), Hl.
  by rewrite list_lookup_alter_eq, Hi.
Qed.

(** On a filesystem whose tree was never opened, [efs_fs_open] allocates
    one block for the tree and hands it to [kvtree_init]; it returns what
    [kvtree_init] returns and stores the handle of the node.  When
    [kvtree_init] failed, the block stays allocated and attached to the
    node. *)
Theorem open_allocates_tree w fs_name fs_node p h rc k s :
  found (str256_from_cstr T fs_name) (fs_list w) = Some fs_node ->
  kvtree (efs_fs fs_node) = None ->
  malloc (mem w) = (Some p, h) ->
  kvtree_init T (ns (efs_fs fs_node)) None (ext w) = (rc, k, s) ->
  exists i w',
    efs_fs_open T fs_name w = Done ((rc, Some i), w') /\
    found (str256_from_cstr T fs_name) (fs_list w') =
      Some (set_kvtree (Some k) fs_node) /\
    live (mem w') = p :: live (mem w) /\
    fs_names (fs_list w') = fs_names (fs_list w).
Proof.
  intros Hf Hk Hm Hinit. destruct (found_lookup _ _ _ Hf) as (i & Hl & Hi).
  exists i. eexists. split.
  { apply (open_run w fs_name i fs_node None h rc k s Hl Hi); [|done].
    right. eauto. }
  cbn.
  assert (Hnames : fs_names (alter (set_kvtree (Some k)) i (fs_list w)) =
                   fs_names (fs_list w))
    by apply fs_names_alter, set_kvtree_name.
  split; [|split; [by apply malloc_live|done]].
  unfold found. rewrite (lookup_names _ _ _ Hnames), Hl.
  by rewrite list_lookup_alter_eq, Hi.
Qed.

(** How [efs_fs_close] goes when [kvtree_fini] returns. *)
Lemma close_run w i fs_node k s :
  fs_list w !! i = Some fs_node ->
  kvtree_fini T (kvtree (efs_fs fs_node)) (ext w) = Done (k, s) ->
  efs_fs_close T (Some i) w =
    Done (tt,
          mk_world
            (alter (set_kvtree (match kvtree (efs_fs fs_node) with
                                | Some _ => Some k
                                | None => None
                                end)) i (fs_list w))
            (mem w) s (log w)).
Proof.
  intros Hi Hfini. unfold efs_fs_close. plumb. cbn. rewrite Hi, Hfini. done.
Qed.

(** [efs_fs_close] only calls [kvtree_fini]: the node stays in [fs_list]
    under its name and with its binding, nothing is freed, and [kvtree]
    is NULL afterwards only if it was NULL before. *)
Theorem close_keeps_registration w i fs_node k s :
  fs_list w !! i = Some fs_node ->
  kvtree_fini T (kvtree (efs_fs fs_node)) (ext w) = Done (k, s) ->
  exists w' fs_node',
    efs_fs_close T (Some i) w = Done (tt, w') /\
    fs_list w' !! i = Some fs_node' /\
    fs_names (fs_list w') = fs_names (fs_list w) /\
    ns (efs_fs fs_node') = ns (efs_fs fs_node) /\
    tenant (efs_fs fs_node') = tenant (efs_fs fs_node) /\
    (kvtree (efs_fs fs_node') = None <-> kvtree (efs_fs fs_node) = None) /\
    mem w' = mem w.
Proof.
  intros Hi Hfini. rewrite (close_run _ _ _ _ _ Hi Hfini).
  eexists _, _. split; [done|]. cbn.
  split; [by rewrite list_lookup_alter_eq, Hi|].
  split; [apply fs_names_alter, set_kvtree_name|].
  cbn. split; [done|]. split; [done|]. split; [|done].
  by destruct (kvtree (efs_fs fs_node)).
Qed.

(** An open, a close of the handle it stored and a second open of the
    same name: the second open allocates nothing, stores the same handle,
    and the names are those before the first open. *)
Theorem open_close_open w fs_name rc1 i w1 w2 fs_node1 rc k s :
  efs_fs_open T fs_name w = Done ((rc1, Some i), w1) ->
  efs_fs_close T (Some i) w1 = Done (tt, w2) ->
  fs_list w2 !! i = Some fs_node1 ->
  kvtree_init T (ns (efs_fs fs_node1)) (kvtree (efs_fs fs_node1)) (ext w2) =
    (rc, k, s) ->
  exists w3,
    efs_fs_open T fs_name w2 = Done ((rc, Some i), w3) /\
    mem w3 = mem w1 /\
    fs_names (fs_list w3) = fs_names (fs_list w).
Proof.
  intros Ho Hc Hi2 Hinit.
  (* the first open *)
  revert Ho. unfold efs_fs_open at 1. plumb. cbn.
  destruct (lookup_cases (str256_from_cstr T fs_name) (fs_list w))
    as [(j & n & Hl & Hj & _)|[Hl _]]; rewrite Hl; after_lookup; [|done].
  rewrite Hj.
  intros Ho.
  assert (Hfirst : j = i /\
            exists k0, fs_list w1 = alter (set_kvtree (Some k0)) j (fs_list w)).
  { destruct (kvtree (efs_fs n)) as [kn|]; cbn in Ho.
    - destruct (kvtree_init T (ns (efs_fs n)) (Some kn) (ext w))
        as [[rc0 k0] s0]. cbn in Ho. rewrite Hj in Ho.
      injection Ho as _ <- <-. eauto.
    - destruct (malloc (mem w)) as [[p|] h]; cbn in Ho; [|done].
      destruct (kvtree_init T (ns (efs_fs n)) None (ext w)) as [[rc0 k0] s0].
      cbn in Ho. rewrite Hj in Ho. injection Ho as _ <- <-. eauto. }
  clear Ho. destruct Hfirst as [-> (k0 & Hl1)].
  assert (Hi1 : fs_list w1 !! i = Some (set_kvtree (Some k0) n))
    by by rewrite Hl1, list_lookup_alter_eq, Hj.
  assert (Hn1 : fs_names (fs_list w1) = fs_names (fs_list w))
    by (rewrite Hl1; apply fs_names_alter, set_kvtree_name).
  (* the close *)
  revert Hc. unfold efs_fs_close. plumb. cbn. rewrite Hi1. cbn.
  destruct (kvtree_fini T (Some k0) (ext w1)) as [[k1 s1]|]; [|done].
  intros [= <-]. cbn in *.
  rewrite list_lookup_alter_eq, Hi1 in Hi2. injection Hi2 as <-.
  assert (Hn2 : fs_names (alter (set_kvtree (Some k1)) i (fs_list w1)) =
                fs_names (fs_list w))
    by (rewrite <- Hn1; apply fs_names_alter, set_kvtree_name).
  (* the second open *)
  pose proof (open_run
                (mk_world (alter (set_kvtree (Some k1)) i (fs_list w1))
                          (mem w1) s1 (log w1))
                fs_name i (set_kvtree (Some k1) (set_kvtree (Some k0) n))
                (Some k1) (mem w1) rc k s) as Hrun.
  eexists. split.
  { apply Hrun.
    - cbn. by rewrite (lookup_names _ _ _ Hn2).
    - cbn. by rewrite list_lookup_alter_eq, Hi1.
    - left. cbn. eauto.
    - exact Hinit. }
  cbn. split; [done|].
  rewrite <- Hn2. apply fs_names_alter, set_kvtree_name.
Qed.

End MoreProperties.

(** ** The further properties on concrete inputs *)

(** Export of a name that is not registered. *)
Lemma endpoint_create_unregistered_witness :
  let X := sample no_fault true in
  let w := sample_boot no_fault true in
  ("tank" ∉ fs_names (fs_list w)) /\
  efs_endpoint_create X "tank" "ro" w = Done (- ENOENT, w).
Proof.
  intros X w.
  assert (Hnot : "tank" ∉ fs_names (fs_list w)) by apply not_elem_of_nil.
  split; [exact Hnot|].
  exact (endpoint_create_unregistered X w "tank" "ro" Hnot).
Defined.

(** A second export of "tank". *)
Lemma endpoint_create_already_exported_witness :
  let X := sample no_fault true in
  let w := sample_tank no_fault true (Some tank_tenant) [Some tank_tenant] [] in
  found "tank" (fs_list w) = Some (tank_node (Some tank_tenant)) /\
  efs_endpoint_create X "tank" "rw" w = Done (- EEXIST, w) /\
  endpoint_info "tank" (fs_list w) = Some "ro".
Proof.
  intros X w. split; [reflexivity|].
  exact (endpoint_create_already_exported X w "tank" "rw"
           (tank_node (Some tank_tenant)) tank_tenant eq_refl eq_refl).
Defined.

(** Export of "tank" over a tenant store that fails to create. *)
Lemma endpoint_create_store_failure_witness :
  let f := mk_faults 0 0 0 0 0 0 (- EIO) 0 in
  let X := sample f true in
  let w := sample_tank f true None [] [] in
  exists w',
    efs_endpoint_create X "tank" "ro" w = Done (- EIO, w') /\
    fs_list w' = fs_list w /\
    endpoint_info "tank" (fs_list w') = None.
Proof.
  intros f X w.
  assert (Hrc : - EIO <> 0) by done.
  destruct (endpoint_create_store_failure X w "tank" "ro" (tank_node None)
              (- EIO) None (ext w) eq_refl eq_refl eq_refl Hrc)
    as (w' & Hrun & Hl & _ & _ & Hinfo).
  exists w'. split; [exact Hrun|]. split; [exact Hl | exact Hinfo].
Defined.

(** Export of "tank". *)
Lemma endpoint_create_attaches_witness :
  let X := sample no_fault true in
  let w := sample_tank no_fault true None [] [] in
  exists w',
    efs_endpoint_create X "tank" "ro" w = Done (0, w') /\
    found "tank" (fs_list w') = Some (tank_node (Some tank_tenant)).
Proof.
  intros X w.
  destruct (endpoint_create_attaches X w "tank" "ro" (tank_node None)
              (Some tank_tenant)
              (mk_disk [sample_ns 1 "tank"] [Some tank_tenant] [] 2)
              eq_refl eq_refl eq_refl)
    as (w' & Hrun & Hf & _).
  exists w'. split; [exact Hrun | exact Hf].
Defined.

(** Delete of a name that is not registered. *)
Lemma delete_unregistered_witness :
  let X := sample no_fault true in
  let w := sample_tank no_fault true None [] [] in
  ("pool" ∉ fs_names (fs_list w)) /\
  efs_fs_delete X "pool" w = Done (- ENOENT, w).
Proof.
  intros X w.
  assert (Hnot : "pool" ∉ fs_names (fs_list w)).
  { intros [?|Hin]%elem_of_cons; [done|]. by apply elem_of_nil in Hin. }
  split; [exact Hnot|].
  exact (delete_unregistered X w "pool" Hnot).
Defined.

(** Delete of "tank" over a tree backend that fails to delete the root. *)
Lemma delete_tree_failure_keeps_node_witness :
  let f := mk_faults 0 0 0 (- EIO) 0 0 0 0 in
  let X := sample f true in
  let w := sample_tank f true None [] [] in
  exists w',
    efs_fs_delete X "tank" w = Done (- EIO, w') /\
    fs_list w' = fs_list w.
Proof.
  intros f X w.
  destruct (delete_tree_failure_keeps_node X w "tank" (tank_node None) (- EIO)
              eq_refl eq_refl)
    as (w' & Hrun & Hl & _).
  { left. exists (ext w). split; [reflexivity | done]. }
  exists w'. split; [exact Hrun | exact Hl].
Defined.

(** Delete of "tank", then lookup. *)
Lemma delete_then_lookup_witness :
  let X := sample no_fault true in
  let w := sample_tank no_fault true None [] [] in
  let w' := state_after (efs_fs_delete X "tank") w in
  unique_names X w /\
  efs_fs_delete X "tank" w = Done (0, w') /\
  efs_fs_lookup "tank" (fs_list w') = (- ENOENT, None).
Proof.
  intros X w w'.
  assert (Hu : unique_names X w).
  { apply NoDup_cons. split; [apply not_elem_of_nil | apply NoDup_nil_2]. }
  assert (Hd : efs_fs_delete X "tank" w = Done (0, w')) by reflexivity.
  split; [exact Hu|]. split; [exact Hd|].
  exact (proj1 (delete_then_lookup X w "tank" w' Hu Hd)).
Defined.


(** Shutdown and reload of the endpoints of "tank". *)
Lemma endpoint_fini_then_init_witness :
  let X := sample no_fault true in
  let w := sample_tank no_fault true (Some tank_tenant) [Some tank_tenant] [] in
  exists w1 w2,
    efs_endpoint_fini X w = Done (0, w1) /\
    efs_endpoint_init X w1 = Done (0, w2) /\
    found "tank" (fs_list w2) = Some (tank_node (Some tank_tenant)).
Proof.
  intros X w.
  destruct (endpoint_fini_then_init X w [tank_tenant] 0 (ext w) eq_refl)
    as (w1 & w2 & Hfini & Hinit & Hf).
  { intros tn ->%list_elem_of_singleton. apply elem_of_cons. left.
    reflexivity. }
  exists w1, w2. split; [exact Hfini|]. split; [exact Hinit|].
  exact (Hf "tank" (tank_node (Some tank_tenant)) eq_refl).
Defined.

(** Startup over a namespace store that holds "tank" and "pool". *)
Lemma fs_init_loads_in_reverse_witness :
  let X := sample no_fault true in
  let w := mk_world (X := X) [] empty_heap
             (mk_disk [sample_ns 1 "tank"; sample_ns 2 "pool"] [] [] 3) [] in
  exists w' new,
    efs_fs_init X w = Done (0, w') /\
    fs_list w' = new ++ [] /\
    (fun n => ns (efs_fs n)) <$> new = [sample_ns 2 "pool"; sample_ns 1 "tank"].
Proof.
  intros X w.
  destruct (fs_init_loads_in_reverse X w
              [(sample_ns 1 "tank", 1%nat); (sample_ns 2 "pool", 1%nat)]
              0 (ext w) eq_refl)
    as (w' & new & Hrun & Hl & Hns & _).
  { cbn. lia. }
  exists w', new. split; [exact Hrun|]. split; [exact Hl | exact Hns].
Defined.

(** Startup when no block can be allocated. *)
Lemma fs_init_hides_allocation_failure_witness :
  let X := sample no_fault true in
  let w := mk_world (X := X) [] (heap_with [] 0%nat None)
             (mk_disk [sample_ns 1 "tank"] [] [] 2) [] in
  exists w', efs_fs_init X w = Done (0, w') /\ fs_list w' = [].
Proof.
  intros X w.
  destruct (fs_init_hides_allocation_failure X w
              [(sample_ns 1 "tank", 1%nat)] 0 (ext w) eq_refl)
    as (w' & Hrun & Hl & _).
  { cbn. lia. }
  exists w'. split; [exact Hrun | exact Hl].
Defined.

(** The callback of the namespace scan on a heap whose fresh blocks hold
    a pointer that is not NULL. *)
Lemma scan_cb_leaves_tenant_unset_witness :
  let X := sample no_fault true in
  let h := heap_with [] 4%nat (Some tank_tenant) in
  let w := mk_world (X := X) [] h (mk_disk [sample_ns 1 "tank"] [] [] 2) [] in
  exists w',
    fs_ns_scan_cb X (sample_ns 1 "tank") 1 w = Done (tt, w') /\
    efs_endpoint_create X "tank" "ro" w' = Done (- EEXIST, w') /\
    efs_fs_delete X "tank" w' = Done (- EINVAL, w').
Proof.
  intros X h w.
  destruct (scan_cb_leaves_tenant_unset X w (sample_ns 1 "tank") 1%nat
              1%nat (malloc h).2 2%nat (malloc (malloc h).2).2
              eq_refl eq_refl)
    as (w' & fs_node & Hrun & _ & _ & _ & Hjunk).
  exists w'. split; [exact Hrun|].
  exact (Hjunk tank_tenant "ro" eq_refl).
Defined.

(** Create when no block can be allocated. *)
Lemma create_out_of_memory_witness :
  let X := sample no_fault true in
  let w := mk_world (X := X) [] (heap_with [] 0%nat None) empty_disk [] in
  efs_fs_create X "tank" w = Done (- ENOMEM, w).
Proof.
  intros X w. apply (create_out_of_memory X w "tank").
  - apply not_elem_of_nil.
  - cbn. lia.
Defined.

(** Create over a namespace store that fails to create. *)
Lemma create_ns_create_failure_witness :
  let f := mk_faults (- EIO) 0 0 0 0 0 0 0 in
  let X := sample f true in
  let w := sample_boot f true in
  exists w',
    efs_fs_create X "tank" w = Done (- EIO, w') /\
    fs_list w' = [] /\ live (mem w') = [].
Proof.
  intros f X w.
  assert (Hrc : - EIO <> 0) by done.
  destruct (create_ns_create_failure X w "tank" 1%nat (malloc empty_heap).2
              (- EIO) (sample_ns 0 "tank") 0%nat empty_disk
              (not_elem_of_nil _) eq_refl eq_refl Hrc)
    as (w' & Hrun & Hl & _).
  exists w'. split; [exact Hrun|]. split; [exact Hl|].
  assert (Heq : Done (- EIO, w') =
                Done (- EIO, state_after (efs_fs_create X "tank") w))
    by (rewrite <- Hrun; reflexivity).
  injection Heq as ->. reflexivity.
Defined.

(** Create when only the node can be allocated. *)
Lemma create_stops_on_unchecked_malloc_witness :
  let X := sample no_fault true in
  let h := heap_with [] 1%nat None in
  let w := mk_world (X := X) [] h empty_disk [] in
  efs_fs_create X "tank" w = Halted NullDeref.
Proof.
  intros X h w.
  apply (create_stops_on_unchecked_malloc X w "tank" 1%nat (malloc h).2
           (sample_ns 1 "tank") 1%nat
           (mk_disk [sample_ns 1 "tank"] [] [] 2) (malloc h).2).
  - apply not_elem_of_nil.
  - reflexivity.
  - reflexivity.
  - lia.
  - reflexivity.
Defined.

(** Create of "pool" beside the exported "tank". *)
Lemma create_keeps_other_entries_witness :
  let X := sample no_fault true in
  let w := sample_tank no_fault true (Some tank_tenant) [Some tank_tenant] [] in
  let w' := state_after (efs_fs_create X "pool") w in
  efs_fs_create X "pool" w = Done (0, w') /\
  fs_names (fs_list w') = ["pool"; "tank"] /\
  endpoint_info "pool" (fs_list w') = None /\
  found "tank" (fs_list w') = Some (tank_node (Some tank_tenant)).
Proof.
  intros X w w'.
  assert (Hc : efs_fs_create X "pool" w = Done (0, w')) by reflexivity.
  destruct (create_keeps_other_entries X w "pool" w' (sample_keeps_name _ _) Hc)
    as (Hnames & Hinfo & Hother).
  split; [exact Hc|]. split; [exact Hnames|]. split; [exact Hinfo|].
  rewrite (Hother "tank"); [reflexivity | done].
Defined.


(** A collecting scan of the exported "tank". *)
Lemma scan_list_visits_all_witness :
  let X := sample no_fault true in
  let w := sample_tank no_fault true (Some tank_tenant) [Some tank_tenant] [] in
  efs_fs_scan_list collect [] w =
    Done ((0, [{| fs_name := "tank"; fs_endpoint_info := Some "ro" |}]), w).
Proof.
  intros X w.
  assert (Hok : forall e (a : list efs_fs_list_entry), (collect e a).1 = 0)
    by (intros e a; reflexivity).
  exact (proj2 (scan_list_visits_all X collect w [] Hok)).
Defined.

(** A scan of "tank", "pool" and "home" with a visitor that refuses
    "pool". *)
Lemma scan_list_stops_at_first_error_witness :
  let X := sample no_fault true in
  let w := mk_world (X := X)
             [tank_node None; loaded_node 2 "pool" None 4%nat 3%nat;
              loaded_node 3 "home" None 6%nat 5%nat]
             (heap_with [6; 5; 4; 3; 2; 1]%nat 4%nat None) empty_disk [] in
  efs_fs_scan_list (collect_until "pool") [] w =
    Done ((- EINVAL, [{| fs_name := "tank"; fs_endpoint_info := None |}]), w).
Proof.
  intros X w.
  apply (scan_list_stops_at_first_error X (collect_until "pool") w
           [tank_node None] (loaded_node 2 "pool" None 4%nat 3%nat)
           [loaded_node 3 "home" None 6%nat 5%nat] []
           [{| fs_name := "tank"; fs_endpoint_info := None |}]).
  - reflexivity.
  - reflexivity.
  - reflexivity.
  - done.
Defined.

(** A collecting scan before and after the create of "tank". *)
Lemma scan_list_after_create_witness :
  let X := sample no_fault true in
  let w := sample_boot no_fault true in
  let w' := state_after (efs_fs_create X "tank") w in
  efs_fs_create X "tank" w = Done (0, w') /\
  exists seen,
    efs_fs_scan_list collect [] w = Done ((0, seen), w) /\
    efs_fs_scan_list collect [] w' =
      Done ((0, {| fs_name := "tank"; fs_endpoint_info := None |} :: seen), w').
Proof.
  intros X w w'.
  assert (Hc : efs_fs_create X "tank" w = Done (0, w')) by reflexivity.
  split; [exact Hc|].
  exact (scan_list_after_create X w "tank" w' (sample_keeps_name _ _) Hc).
Defined.

(** Open of a name that is not registered. *)
Lemma open_unregistered_witness :
  let T := sample_tree no_fault true 0 in
  let w := sample_boot no_fault true in
  efs_fs_open T "tank" w = Done ((- ENOENT, None), w).
Proof.
  intros T w. apply (open_unregistered _ T w "tank"). apply not_elem_of_nil.
Defined.

(** First open of "tank" when no block can be allocated. *)
Lemma open_out_of_memory_witness :
  let X := sample no_fault true in
  let T := sample_tree no_fault true 0 in
  let w := mk_world (X := X) [loaded_node 1 "tank" None 2%nat 1%nat]
             (heap_with [2; 1]%nat 0%nat None)
             (mk_disk [sample_ns 1 "tank"] [] [] 2) [] in
  efs_fs_open T "tank" w = Done ((- ENOMEM, None), w).
Proof.
  intros X T w.
  apply (open_out_of_memory X T w "tank" (loaded_node 1 "tank" None 2%nat 1%nat)).
  - reflexivity.
  - reflexivity.
  - cbn. lia.
Defined.

(** Open of the created "tank" over a tree backend that fails to
    initialise. *)
Lemma open_reuses_tree_witness :
  let X := sample no_fault true in
  let T := sample_tree no_fault true (- EIO) in
  let w := sample_tank no_fault true None [] [] in
  exists w',
    efs_fs_open T "tank" w = Done ((- EIO, Some 0%nat), w') /\
    mem w' = mem w.
Proof.
  intros X T w.
  destruct (open_reuses_tree X T w "tank" (tank_node None) (KvTree 1) (- EIO)
              (KvTree 1) (ext w) eq_refl eq_refl eq_refl)
    as (i & w' & Hrun & Hi & _ & _ & Hmem).
  assert (Hi0 : i = 0%nat).
  { destruct i as [|i]; [done|]. cbn in Hi. by destruct i. }
  subst i. exists w'. split; [exact Hrun | exact Hmem].
Defined.

(** First open of "tank" loaded at startup. *)
Lemma open_allocates_tree_witness :
  let X := sample no_fault true in
  let T := sample_tree no_fault true 0 in
  let h := heap_with [2; 1]%nat 1%nat None in
  let w := mk_world (X := X) [loaded_node 1 "tank" None 2%nat 1%nat] h
             (mk_disk [sample_ns 1 "tank"] [] [] 2) [] in
  exists i w',
    efs_fs_open T "tank" w = Done ((0, Some i), w') /\
    live (mem w') = [3; 2; 1]%nat.
Proof.
  intros X T h w.
  destruct (open_allocates_tree X T w "tank" (loaded_node 1 "tank" None 2%nat 1%nat)
              3%nat (malloc h).2 0 (KvTree 1) (ext w)
              eq_refl eq_refl eq_refl eq_refl)
    as (i & w' & Hrun & _ & Hlive & _).
  exists i, w'. split; [exact Hrun | exact Hlive].
Defined.

(** Close of the created "tank". *)
Lemma close_keeps_registration_witness :
  let X := sample no_fault true in
  let T := sample_tree no_fault true 0 in
  let w := sample_tank no_fault true (Some tank_tenant) [Some tank_tenant] [] in
  exists w',
    efs_fs_close T (Some 0%nat) w = Done (tt, w') /\
    fs_names (fs_list w') = ["tank"] /\
    mem w' = mem w.
Proof.
  intros X T w.
  destruct (close_keeps_registration X T w 0%nat (tank_node (Some tank_tenant))
              (KvTree 1) (ext w) eq_refl eq_refl)
    as (w' & fs_node' & Hrun & _ & Hnames & _ & _ & _ & Hmem).
  exists w'. split; [exact Hrun|]. split; [exact Hnames | exact Hmem].
Defined.

(** Open, close and open again of "tank" loaded at startup. *)
Lemma open_close_open_witness :
  let X := sample no_fault true in
  let T := sample_tree no_fault true 0 in
  let h := heap_with [2; 1]%nat 1%nat None in
  let w := mk_world (X := X) [loaded_node 1 "tank" None 2%nat 1%nat] h
             (mk_disk [sample_ns 1 "tank"] [] [] 2) [] in
  let w1 := state_after (efs_fs_open T "tank") w in
  let w2 := state_after (efs_fs_close T (Some 0%nat)) w1 in
  efs_fs_open T "tank" w = Done ((0, Some 0%nat), w1) /\
  efs_fs_close T (Some 0%nat) w1 = Done (tt, w2) /\
  live (mem w1) = [3; 2; 1]%nat /\
  exists w3,
    efs_fs_open T "tank" w2 = Done ((0, Some 0%nat), w3) /\
    mem w3 = mem w1.
Proof.
  intros X T h w w1 w2.
  assert (Ho : efs_fs_open T "tank" w = Done ((0, Some 0%nat), w1))
    by reflexivity.
  assert (Hc : efs_fs_close T (Some 0%nat) w1 = Done (tt, w2)) by reflexivity.
  split; [exact Ho|]. split; [exact Hc|]. split; [reflexivity|].
  destruct (open_close_open X T w "tank" 0 0%nat w1 w2
              (set_kvtree (Some (KvTree 1)) (loaded_node 1 "tank" None 2%nat 1%nat))
              0 (KvTree 1) (ext w2) Ho Hc eq_refl eq_refl)
    as (w3 & Hrun & Hmem & _).
  exists w3. split; [exact Hrun | exact Hmem].
Defined.
